(** * Canonical metadata layer of the ibis server: Snowflake metadata extractor,
      and the executor / validator contracts exercised by the router tests.

    The development follows [app/model/metadata/snowflake.py]: Python [str]
    values are sequences of Unicode code points, the insertion-ordered [dict]
    is an association list, and a method that can raise returns [exc]. *)

From Stdlib Require Import List NArith ZArith Bool Ascii String Lia Permutation.
Import ListNotations.

Set Implicit Arguments.

(* ===================================================================== *)
(** ** Python strings                                                     *)
(* ===================================================================== *)

Module PyStr.

Local Open Scope N_scope.

(** A Python [str] is a sequence of code points. *)
Definition codepoint := N.
Definition str := list codepoint.

(** A source literal (ASCII text) as a [str]. *)
Definition lit (s : string) : str := map N_of_ascii (list_ascii_of_string s).

Definition str_eq_dec : forall a b : str, {a = b} + {a <> b} :=
  list_eq_dec N.eq_dec.

(** [a == b] on strings. *)
Definition eqb (a b : str) : bool := if str_eq_dec a b then true else false.

Definition between (lo hi c : N) : bool := (lo <=? c) && (c <=? hi).

(** [chr(c).lower()].  Exact for Basic Latin, Latin-1 Supplement and
    Latin Extended-A (U+0000..U+017F) and for the Kelvin sign U+212A, the
    only code point outside ASCII that Python lowers to ASCII text.  Any
    other code point is returned as it is: this is what Python does for an
    uncased code point, and it is not what Python does for the cased
    letters beyond U+017F (Greek, Cyrillic, ...), nor for the capital sigma
    at the end of a word.  Whether the lowered form of a string is a given
    ASCII text is therefore the same here and in Python, for every string;
    the lowered form itself is Python's only on the range above. *)
Definition lower_cp (c : codepoint) : str :=
  if between 0x41 0x5A c then [c + 32]
  else if between 0xC0 0xDE c && negb (c =? 0xD7) then [c + 32]
  else if between 0x100 0x12F c && N.even c then [c + 1]
  else if c =? 0x130 then [0x69; 0x307]
  else if between 0x132 0x137 c && N.even c then [c + 1]
  else if between 0x139 0x148 c && N.odd c then [c + 1]
  else if between 0x14A 0x177 c && N.even c then [c + 1]
  else if c =? 0x178 then [0xFF]
  else if between 0x179 0x17E c && N.odd c then [c + 1]
  else if c =? 0x212A then [0x6B]
  else [c].

(** [chr(c).upper()].  Exact for U+0000..U+017F; any other code point is
    returned as it is, which is not what Python does for the cased letters
    and the ligatures beyond U+017F (U+FB02 is raised to [FL]).  The raised
    form is Python's for the strings of that range only. *)
Definition upper_cp (c : codepoint) : str :=
  if between 0x61 0x7A c then [c - 32]
  else if c =? 0xB5 then [0x39C]
  else if c =? 0xDF then [0x53; 0x53]
  else if between 0xE0 0xFE c && negb (c =? 0xF7) then [c - 32]
  else if c =? 0xFF then [0x178]
  else if between 0x100 0x12F c && N.odd c then [c - 1]
  else if c =? 0x131 then [0x49]
  else if between 0x132 0x137 c && N.odd c then [c - 1]
  else if between 0x139 0x148 c && N.even c then [c - 1]
  else if c =? 0x149 then [0x2BC; 0x4E]
  else if between 0x14A 0x177 c && N.odd c then [c - 1]
  else if between 0x179 0x17E c && N.even c then [c - 1]
  else if c =? 0x17F then [0x53]
  else [c].

(** [s.lower()] and [s.upper()]. *)
Definition lower (s : str) : str := flat_map lower_cp s.
Definition upper (s : str) : str := flat_map upper_cp s.

(** Every code point of [s] is ASCII ([s.isascii()]). *)
Definition isascii (s : str) : bool := forallb (fun c => c <? 128) s.

(** The code points U+0000..U+017F. *)
Definition modelled_range : list codepoint := map N.of_nat (seq 0 384).

End PyStr.
Export PyStr.

(* ===================================================================== *)
(** ** Python dictionaries and exceptions                                 *)
(* ===================================================================== *)

Module PyDict.

(** A [dict] keyed by [str]: entries in insertion order, keys unique. *)
Definition dict (V : Type) := list (str * V).

Section Ops.
Variable V : Type.

(** [d.get(k)], as an option. *)
Fixpoint lookup (d : dict V) (k : str) : option V :=
  match d with
  | [] => None
  | (k', v) :: rest => if PyStr.eqb k' k then Some v else lookup rest k
  end.

(** [d.get(k, default)]. *)
Definition get (d : dict V) (k : str) (default : V) : V :=
  match lookup d k with
  | Some v => v
  | None => default
  end.

(** [k in d]. *)
Definition contains (d : dict V) (k : str) : bool :=
  match lookup d k with
  | Some _ => true
  | None => false
  end.

(** [d[k] = v]: an existing key keeps its position, a new key goes last. *)
Fixpoint set (d : dict V) (k : str) (v : V) : dict V :=
  match d with
  | [] => [(k, v)]
  | (k', v') :: rest =>
      if PyStr.eqb k' k then (k', v) :: rest else (k', v') :: set rest k v
  end.

(** In-place update of the object stored under [k]. *)
Definition alter (f : V -> V) (d : dict V) (k : str) : dict V :=
  map (fun e => if PyStr.eqb (fst e) k then (fst e, f (snd e)) else e) d.

Definition keys (d : dict V) : list str := map fst d.

(** [list(d.values())]. *)
Definition values (d : dict V) : list V := map snd d.

(** [dict(pairs)]. *)
Definition of_pairs (pairs : list (str * V)) : dict V :=
  fold_left (fun d e => set d (fst e) (snd e)) pairs [].
End Ops.

End PyDict.

Module Exc.

Inductive exception :=
| KeyError (key : str)
| BackendError (msg : str).

(** The outcome of a call that may raise. *)
Inductive exc (A : Type) :=
| Ok (a : A)
| Raise (e : exception).
Arguments Ok {A} a.
Arguments Raise {A} e.

Definition bind {A B} (m : exc A) (k : A -> exc B) : exc B :=
  match m with
  | Ok a => k a
  | Raise e => Raise e
  end.

(** [d[k]]. *)
Definition getitem {V} (d : PyDict.dict V) (k : str) : exc V :=
  match PyDict.lookup d k with
  | Some v => Ok v
  | None => Raise (KeyError k)
  end.

End Exc.
Export Exc.

Notation "x <- m ;; k" := (Exc.bind m (fun x => k))
  (at level 61, m at next level, right associativity).

(* ===================================================================== *)
(** ** Metadata objects ([app.model.metadata.dto])                        *)
(* ===================================================================== *)

(** Modelled from the spec: the declaration of [WrenEngineColumnType] is in
    [dto.py]; these are the members of the ColumnType enumeration of the
    data model, which are also the ones [snowflake.py] refers to. *)
Inductive WrenEngineColumnType :=
| NUMERIC | INTEGER | BIGINT | SMALLINT | TINYINT
| FLOAT4 | FLOAT8 | DOUBLE | REAL
| VARCHAR | CHAR | STRING | TEXT
| BOOLEAN | DATE | TIMESTAMP | TIMESTAMPTZ | BYTEA
| UNKNOWN.

(** Modelled from the spec: [ConstraintType] of [dto.py], whose only member
    is the foreign key. *)
Inductive ConstraintType := FOREIGN_KEY.

(** Modelled from the spec: the record declarations of [dto.py], with the
    fields the constructors calls of [snowflake.py] give. *)
Module TableProperties.
Record t := make { schema : str; catalog : str; table : str }.
End TableProperties.

Module Column.
Record t := make {
  name : str;
  type : WrenEngineColumnType;
  notNull : bool;
  description : option str;
  properties : option (PyDict.dict str)
}.
End Column.

Module Table.
Record t := make {
  name : str;
  description : option str;
  columns : list Column.t;
  properties : TableProperties.t;
  primaryKey : str
}.
End Table.

Module Constraint.
Record t := make {
  constraintName : str;
  constraintTable : str;
  constraintColumn : str;
  constraintedTable : str;
  constraintedColumn : str;
  constraintType : ConstraintType
}.
End Constraint.

(* ===================================================================== *)
(** ** [SnowflakeMetadata]                                                *)
(* ===================================================================== *)

Module SnowflakeMetadata.

(** The mapping table of [_transform_column_type], in source order. *)
Definition switcher : PyDict.dict WrenEngineColumnType :=
  [ (lit "number", NUMERIC); (lit "decimal", NUMERIC); (lit "numeric", NUMERIC);
    (lit "int", INTEGER); (lit "integer", INTEGER); (lit "bigint", BIGINT);
    (lit "smallint", SMALLINT); (lit "tinyint", TINYINT); (lit "byteint", TINYINT);
    (lit "float4", FLOAT4); (lit "float", FLOAT8); (lit "float8", FLOAT8);
    (lit "double", DOUBLE); (lit "double precision", DOUBLE); (lit "real", REAL);
    (lit "varchar", VARCHAR); (lit "char", CHAR); (lit "character", CHAR);
    (lit "string", STRING); (lit "text", TEXT);
    (lit "boolean", BOOLEAN);
    (lit "date", DATE); (lit "datetime", TIMESTAMP); (lit "timestamp", TIMESTAMP);
    (lit "timestamp_ntz", TIMESTAMP); (lit "timestamp_tz", TIMESTAMPTZ) ].

Definition _transform_column_type (data_type : str) : WrenEngineColumnType :=
  PyDict.get switcher (lower data_type) UNKNOWN.

(** [f"{schema}.{table}"] *)
Definition _format_compact_table_name (schema table : str) : str :=
  schema ++ lit "." ++ table.

(** [f"{table_name}_{column_name}_{referenced_table_name}_{referenced_column_name}"] *)
Definition _format_constraint_name
    (table_name column_name referenced_table_name referenced_column_name : str) : str :=
  table_name ++ lit "_" ++ column_name ++ lit "_" ++
  referenced_table_name ++ lit "_" ++ referenced_column_name.

(** One record of the answer to the column query of [get_table_list]; the
    select list fixes the keys.  The two comments are nullable. *)
Record ColumnsRow := {
  TABLE_CATALOG : str;
  TABLE_SCHEMA : str;
  TABLE_NAME : str;
  COLUMN_NAME : str;
  DATA_TYPE : str;
  IS_NULLABLE : str;
  COLUMN_COMMENT : option str;
  TABLE_COMMENT : option str
}.

(** The [Column(...)] built from a row. *)
Definition column_of_row (row : ColumnsRow) : Column.t :=
  Column.make
    (COLUMN_NAME row)
    (_transform_column_type (DATA_TYPE row))
    (PyStr.eqb (lower (IS_NULLABLE row)) (lit "no"))
    (COLUMN_COMMENT row)
    None.

(** The [Table(...)] built on the first row of a table. *)
Definition table_shell (schema_table : str) (row : ColumnsRow) : Table.t :=
  Table.make
    schema_table
    (TABLE_COMMENT row)
    []
    (TableProperties.make (TABLE_SCHEMA row) (TABLE_CATALOG row) (TABLE_NAME row))
    (lit "").

(** [table.columns.append(column)] *)
Definition append_column (column : Column.t) (table : Table.t) : Table.t :=
  Table.make (Table.name table) (Table.description table)
             (Table.columns table ++ [column])
             (Table.properties table) (Table.primaryKey table).

(** The body of the loop of [get_table_list].  The second statement reads
    [unique_tables[schema_table]], which the first one has made sure
    exists, and appends to the column list of the stored table. *)
Definition table_list_step (unique_tables : PyDict.dict Table.t) (row : ColumnsRow)
  : PyDict.dict Table.t :=
  let schema_table := _format_compact_table_name (TABLE_SCHEMA row) (TABLE_NAME row) in
  let unique_tables :=
    if negb (PyDict.contains unique_tables schema_table)
    then PyDict.set unique_tables schema_table (table_shell schema_table row)
    else unique_tables in
  PyDict.alter (append_column (column_of_row row)) unique_tables schema_table.

(** [get_table_list], from the records of the column query on. *)
Definition get_table_list (response : list ColumnsRow) : list Table.t :=
  PyDict.values (fold_left table_list_step response []).

(** A record of [SHOW IMPORTED KEYS]: the cells keyed by the field names
    of the cursor description. *)
Definition KeysRow := PyDict.dict str.

(** The [Constraint(...)] built from a record; the keyword arguments are
    evaluated in source order, so the first absent key is the one raised. *)
Definition constraint_of_row (row : KeysRow) : exc Constraint.t :=
  pk_table_name <- getitem row (lit "pk_table_name") ;;
  pk_column_name <- getitem row (lit "pk_column_name") ;;
  fk_table_name <- getitem row (lit "fk_table_name") ;;
  fk_column_name <- getitem row (lit "fk_column_name") ;;
  pk_schema_name <- getitem row (lit "pk_schema_name") ;;
  pk_table_name' <- getitem row (lit "pk_table_name") ;;
  pk_column_name' <- getitem row (lit "pk_column_name") ;;
  fk_schema_name <- getitem row (lit "fk_schema_name") ;;
  fk_table_name' <- getitem row (lit "fk_table_name") ;;
  fk_column_name' <- getitem row (lit "fk_column_name") ;;
  Ok (Constraint.make
        (_format_constraint_name pk_table_name pk_column_name
                                 fk_table_name fk_column_name)
        (_format_compact_table_name pk_schema_name pk_table_name')
        pk_column_name'
        (_format_compact_table_name fk_schema_name fk_table_name')
        fk_column_name'
        FOREIGN_KEY).

(** [for row in res: constraints.append(Constraint(...))] *)
Fixpoint constraints_loop (res : list KeysRow) (constraints : list Constraint.t)
  : exc (list Constraint.t) :=
  match res with
  | [] => Ok constraints
  | row :: rest =>
      c <- constraint_of_row row ;;
      constraints_loop rest (constraints ++ [c])
  end.

Section GetConstraints.

(** [ibis.memtable(result).to_pandas().to_dict(orient="records")]: the
    round trip of the records through the data-frame library, which is
    not part of this repository. *)
Variable memtable_records : list KeysRow -> exc (list KeysRow).

(** The records [res] of [get_constraints], from the open cursor on:
    [description] is [cur.description] (the field name is the first
    component) and [fetched] is [cur.fetchall()].  The round trip is
    skipped when nothing was fetched. *)
Definition imported_keys (description : list (str * str)) (fetched : list (list str))
  : exc (list KeysRow) :=
  let fields := map fst description in
  let result := map (fun row => PyDict.of_pairs (combine fields row)) fetched in
  if (0 <? List.length result)%nat then memtable_records result else Ok [].

Definition get_constraints (description : list (str * str)) (fetched : list (list str))
  : exc (list Constraint.t) :=
  res <- imported_keys description fetched ;;
  constraints_loop res [].

End GetConstraints.

(** *** Reading of the table list as a grouping *)

(** The compact name a row is grouped under. *)
Definition compact_name (row : ColumnsRow) : str :=
  _format_compact_table_name (TABLE_SCHEMA row) (TABLE_NAME row).

(** The distinct names of a list, each at its first sighting. *)
Fixpoint first_sightings (names : list str) : list str :=
  match names with
  | [] => []
  | n :: rest => n :: filter (fun x => negb (PyStr.eqb x n)) (first_sightings rest)
  end.

(** The rows of one table, in the order of the response. *)
Definition rows_of (name : str) (response : list ColumnsRow) : list ColumnsRow :=
  filter (fun row => PyStr.eqb (compact_name row) name) response.

(** A table after the columns of [rows] were appended one by one. *)
Definition add_columns (table : Table.t) (rows : list ColumnsRow) : Table.t :=
  fold_left (fun t row => append_column (column_of_row row) t) rows table.

(** The table list as a grouping: a row opens its table unless an earlier
    row did, and a table collects all its rows. *)
Fixpoint grouped (response : list ColumnsRow) : PyDict.dict Table.t :=
  match response with
  | [] => []
  | row :: rest =>
      let n := compact_name row in
      (n, add_columns (table_shell n row) (row :: rows_of n rest))
        :: filter (fun e => negb (PyStr.eqb (fst e) n)) (grouped rest)
  end.

(** The tables already open receive the rows that are theirs. *)
Definition extended (rows : list ColumnsRow) (e : str * Table.t) : str * Table.t :=
  (fst e, add_columns (snd e) (rows_of (fst e) rows)).

(** The entries of the grouping whose table is not open yet. *)
Definition unopened (d : PyDict.dict Table.t) (g : PyDict.dict Table.t)
  : PyDict.dict Table.t :=
  filter (fun e => negb (PyDict.contains d (fst e))) g.

(** An entry of the grouping: the shell of the first row of the table,
    with one column for each row of the table, in the order of the rows. *)
Definition entry_of (response : list ColumnsRow) (e : str * Table.t) : Prop :=
  exists first more,
    rows_of (fst e) response = first :: more
    /\ snd e = add_columns (table_shell (fst e) first) (first :: more).

(** The columns of all the tables of the dictionary. *)
Definition all_columns (d : PyDict.dict Table.t) : list Column.t :=
  flat_map Table.columns (PyDict.values d).

(** The six fields of a record that [get_constraints] reads. *)
Definition key_columns : list str :=
  [ lit "pk_table_name"; lit "pk_column_name"; lit "fk_table_name";
    lit "fk_column_name"; lit "pk_schema_name"; lit "fk_schema_name" ].

Definition has_key_columns (row : KeysRow) : bool :=
  forallb (PyDict.contains row) key_columns.

End SnowflakeMetadata.

(* ===================================================================== *)
(** ** Query executor: row limit and timestamp rendering                  *)
(* ===================================================================== *)

Module QueryExecutor.

Section Limit.
Variable Row : Type.

(** Modelled from the spec: the executor ([app/routers], [app/model]
    connector) is not among the sources.  The limit that governs is the
    smaller of the caller's [limit] and the one in the SQL text; with
    only one of them present that one governs, with none all rows are
    returned. *)
Definition governing_limit (caller embedded : option nat) : option nat :=
  match caller, embedded with
  | Some c, Some e => Some (Nat.min c e)
  | Some c, None => Some c
  | None, e => e
  end.

(** Modelled from the spec: the rows [execute] returns for a query that
    yields [rows] when no limit applies, whose text has the limit
    [embedded], called with the limit [caller]. *)
Definition execute (rows : list Row) (embedded caller : option nat) : list Row :=
  match governing_limit caller embedded with
  | Some n => firstn n rows
  | None => rows
  end.
End Limit.

Local Open Scope Z_scope.

(** A calendar date and time of day, without zone. *)
Record datetime := {
  year : Z; month : Z; day : Z;
  hour : Z; minute : Z; second : Z; microsecond : Z
}.

(** A timestamp with zone as a backend returns it: the wall clock of the
    display zone and that zone's offset from UTC, in seconds. *)
Record datetimetz := { local : datetime; utcoffset : Z }.

(** Days from 1970-01-01 to a civil date of the proleptic Gregorian
    calendar, and back. *)
Definition days_from_civil (y m d : Z) : Z :=
  let y := if m <=? 2 then y - 1 else y in
  let era := y / 400 in
  let yoe := y - era * 400 in
  let mp := (m + 9) mod 12 in
  let doy := (153 * mp + 2) / 5 + d - 1 in
  let doe := yoe * 365 + yoe / 4 - yoe / 100 + doy in
  era * 146097 + doe - 719468.

Definition civil_from_days (z : Z) : Z * Z * Z :=
  let z := z + 719468 in
  let era := z / 146097 in
  let doe := z - era * 146097 in
  let yoe := (doe - doe / 1460 + doe / 36524 - doe / 146096) / 365 in
  let doy := doe - (365 * yoe + yoe / 4 - yoe / 100) in
  let mp := (5 * doy + 2) / 153 in
  let d := doy - (153 * mp + 2) / 5 + 1 in
  let m := if mp <? 10 then mp + 3 else mp - 9 in
  let y := yoe + era * 400 in
  (if m <=? 2 then y + 1 else y, m, d).

(** Microseconds from the epoch to a wall clock read as UTC, and back. *)
Definition micros_of_datetime (t : datetime) : Z :=
  (((days_from_civil (year t) (month t) (day t) * 24 + hour t) * 60
    + minute t) * 60 + second t) * 1000000 + microsecond t.

Definition datetime_of_micros (us : Z) : datetime :=
  let secs := us / 1000000 in
  let days := secs / 86400 in
  let sod := secs mod 86400 in
  let '(y, m, d) := civil_from_days days in
  {| year := y; month := m; day := d;
     hour := sod / 3600; minute := (sod / 60) mod 60; second := sod mod 60;
     microsecond := us mod 1000000 |}.

(** The instant a timestamp with zone denotes. *)
Definition instant (v : datetimetz) : Z :=
  micros_of_datetime (local v) - utcoffset v * 1000000.

(** The wall clock of the same instant in UTC. *)
Definition to_utc (v : datetimetz) : datetime := datetime_of_micros (instant v).

(** [n] in decimal on [width] digits, zero padded. *)
Fixpoint digits (width : nat) (n : Z) : str :=
  match width with
  | O => []
  | S w => digits w (n / 10) ++ [Z.to_N (48 + n mod 10)]
  end.

(** Modelled from the spec: a TIMESTAMP is rendered as the local-naive
    wall clock with six fractional digits; the layout
    [YYYY-MM-DD HH:MM:SS.ffffff] is the one the router tests expect. *)
Definition format_timestamp (t : datetime) : str :=
  digits 4 (year t) ++ lit "-" ++ digits 2 (month t) ++ lit "-" ++ digits 2 (day t)
  ++ lit " " ++ digits 2 (hour t) ++ lit ":" ++ digits 2 (minute t) ++ lit ":"
  ++ digits 2 (second t) ++ lit "." ++ digits 6 (microsecond t).

(** Modelled from the spec: a TIMESTAMPTZ is normalized to UTC, rendered
    with the same precision and suffixed with the zone indicator. *)
Definition format_timestamptz (v : datetimetz) : str :=
  format_timestamp (to_utc v) ++ lit " UTC".

End QueryExecutor.

(* ===================================================================== *)
(** ** Validation rule engine                                             *)
(* ===================================================================== *)

Module Validator.

(** Modelled from the spec: the outcomes of a call of the rule engine, whose
    code ([app/model/validator.py]) is not among the sources.  The error for
    an unknown rule carries the names of the known rules. *)
Inductive outcome :=
| Success
| RuleNotFoundError (rule_name : str) (known : list str)
| ParameterError (parameter : str)
| ValidationError (msg : str).

(** The text Python gives for a list of names, [['a', 'b']] (for names
    without quote, backslash or control character). *)
Fixpoint repr_items (names : list str) : str :=
  match names with
  | [] => []
  | [n] => lit "'" ++ n ++ lit "'"
  | n :: rest => lit "'" ++ n ++ lit "', " ++ repr_items rest
  end.

Definition repr_names (names : list str) : str :=
  lit "[" ++ repr_items names ++ lit "]".

(** Modelled from the spec: the text of the response for a failed call, as
    the router tests expect it: the unknown rule with the enumeration of
    the known rules, and the missing parameter. *)
Definition message (o : outcome) : str :=
  match o with
  | Success => lit ""
  | RuleNotFoundError r known =>
      lit "The rule `" ++ r ++ lit "` is not in the rules, rules: " ++ repr_names known
  | ParameterError p => lit "Missing required parameter: `" ++ p ++ lit "`"
  | ValidationError m => m
  end.

Section Engine.
(** The manifest and the connection of the call. *)
Variables Manifest ConnectionInfo : Type.

(** Modelled from the spec: [app/model/validator.py] is not among the
    sources.  A rule declares its required parameter names, in order,
    and has a check that runs once they are all there. *)
Record Rule := {
  required : list str;
  check : Manifest -> ConnectionInfo -> PyDict.dict str -> outcome
}.

(** The first required name, in declared order, that [parameters] lacks. *)
Definition first_missing (names : list str) (parameters : PyDict.dict str)
  : option str :=
  find (fun p => negb (PyDict.contains parameters p)) names.

(** Modelled from the spec: [run(ruleName, manifest, connectionInfo,
    parameters)] over the registry [rules]. *)
Definition run (rules : PyDict.dict Rule) (rule_name : str) (manifest : Manifest)
    (connection_info : ConnectionInfo) (parameters : PyDict.dict str) : outcome :=
  match PyDict.lookup rules rule_name with
  | None => RuleNotFoundError rule_name (PyDict.keys rules)
  | Some rule =>
      match first_missing (required rule) parameters with
      | Some p => ParameterError p
      | None => check rule manifest connection_info parameters
      end
  end.

(** Modelled from the spec: the built-in rule requires [modelName] and
    then [columnName]; its check against the manifest and the backend is
    [column_check]. *)
Variable column_check : Manifest -> ConnectionInfo -> PyDict.dict str -> outcome.

Definition column_is_valid : Rule :=
  {| required := [lit "modelName"; lit "columnName"]; check := column_check |}.

Definition rules : PyDict.dict Rule := [(lit "column_is_valid", column_is_valid)].
End Engine.

End Validator.

(* ===================================================================== *)
(** ** The values of a query result                                       *)
(* ===================================================================== *)

Module ResultFormat.
Import QueryExecutor.

Local Open Scope Z_scope.

(** Modelled from the spec: a cell of a timestamp column of the result, as
    the backend gives it for the resolved query: null, a wall clock without
    zone, or a wall clock with the offset of its display zone. *)
Inductive cell :=
| Null
| Timestamp (t : datetime)
| TimestampTz (v : datetimetz).

(** Modelled from the spec: a column of the result, with the type the
    manifest declares for it. *)
Record ResultColumn := {
  declared : WrenEngineColumnType;
  cells : list cell
}.

(** Modelled from the spec: the value of a cell in the response.  Which
    rendering applies is decided by the cell and not by the declared type
    of its column: the router test of MSSQL declares the column
    [timestamptz] as [timestamp], gives it a timestamp with time zone, and
    expects the rendering with [ UTC]; a null stays null. *)
Definition render_cell (c : cell) : option str :=
  match c with
  | Null => None
  | Timestamp t => Some (format_timestamp t)
  | TimestampTz v => Some (format_timestamptz v)
  end.

Definition render_column (column : ResultColumn) : list (option str) :=
  map render_cell (cells column).

(** Modelled from the spec: the values of the QueryResult that [execute]
    materializes (step 4), column by column. *)
Definition materialize (result : list ResultColumn) : list (list (option str)) :=
  map render_column result.

(** The dates of the calendar and the times of the clock. *)
Definition is_leap (y : Z) : bool :=
  (y mod 4 =? 0) && (negb (y mod 100 =? 0) || (y mod 400 =? 0)).

Definition last_day (y m : Z) : Z :=
  if m =? 2 then (if is_leap y then 29 else 28)
  else if (m =? 4) || (m =? 6) || (m =? 9) || (m =? 11) then 30 else 31.

Definition valid_date (y m d : Z) : Prop :=
  1 <= m <= 12 /\ 1 <= d <= last_day y m.

Definition valid_datetime (t : datetime) : Prop :=
  valid_date (year t) (month t) (day t)
  /\ 0 <= hour t < 24 /\ 0 <= minute t < 60 /\ 0 <= second t < 60
  /\ 0 <= microsecond t < 1000000.

End ResultFormat.

(* ===================================================================== *)
(** ** Sample inputs                                                      *)
(* ===================================================================== *)

Module Samples.
Import SnowflakeMetadata QueryExecutor Validator ResultFormat.

(** The name [ſtring], with U+017F LATIN SMALL LETTER LONG S: it is its
    own lowered form, and its raised form is [STRING]. *)
Definition long_s_tring : str := 0x17F%N :: lit "tring".

(** A row of the column query for schema [PUBLIC] of database [DB]. *)
Definition columns_row (table column data_type nullable : string) (comment : option str)
  : ColumnsRow :=
  {| TABLE_CATALOG := lit "DB"; TABLE_SCHEMA := lit "PUBLIC";
     TABLE_NAME := lit table; COLUMN_NAME := lit column;
     DATA_TYPE := lit data_type; IS_NULLABLE := lit nullable;
     COLUMN_COMMENT := None; TABLE_COMMENT := comment |}.

(** Two tables, the rows of [ORDERS] around the one of [CUSTOMER]. *)
Definition response : list ColumnsRow :=
  [ columns_row "ORDERS" "O_ORDERKEY" "NUMBER" "NO" (Some (lit "orders"));
    columns_row "CUSTOMER" "C_CUSTKEY" "NUMBER" "NO" None;
    columns_row "ORDERS" "O_COMMENT" "TEXT" "YES" (Some (lit "orders")) ].

(** The first row of a response, [ORDERS.O_ORDERKEY] when it is empty. *)
Definition hd_sample (response : list ColumnsRow) : ColumnsRow :=
  hd (columns_row "ORDERS" "O_ORDERKEY" "NUMBER" "NO" (Some (lit "orders"))) response.

(** The header and one row of [SHOW IMPORTED KEYS]. *)
Definition keys_description : list (str * str) :=
  map (fun f => (lit f, lit "TEXT"))
      [ "pk_schema_name"; "pk_table_name"; "pk_column_name";
        "fk_schema_name"; "fk_table_name"; "fk_column_name" ]%string.

Definition keys_fetched : list (list str) :=
  [ [ lit "PUBLIC"; lit "CUSTOMER"; lit "C_CUSTKEY";
      lit "SALES"; lit "ORDERS"; lit "O_CUSTKEY" ] ].

(** A record of an edge between the two tables of [response]. *)
Definition public_keys_record : KeysRow :=
  PyDict.of_pairs
    (combine (map fst keys_description)
             [ lit "PUBLIC"; lit "CUSTOMER"; lit "C_CUSTKEY";
               lit "PUBLIC"; lit "ORDERS"; lit "O_CUSTKEY" ]).

(** A response of another schema. *)
Definition other_response : list ColumnsRow :=
  [ {| TABLE_CATALOG := lit "DB"; TABLE_SCHEMA := lit "SALES";
       TABLE_NAME := lit "ORDERS"; COLUMN_NAME := lit "ID";
       DATA_TYPE := lit "NUMBER"; IS_NULLABLE := lit "NO";
       COLUMN_COMMENT := None; TABLE_COMMENT := None |} ].

(** A data-frame round trip that hands the records back. *)
Definition plain_records (result : list KeysRow) : exc (list KeysRow) := Ok result.

Local Open Scope Z_scope.

Definition wall_clock (y m d hh mm ss : Z) : datetime :=
  {| year := y; month := m; day := d;
     hour := hh; minute := mm; second := ss; microsecond := 0 |}.

(** 23:00 in New York on a winter day (UTC-5) and on a summer day
    (UTC-4), and the winter instant as a backend set to UTC shows it. *)
Definition new_york_winter : datetimetz :=
  {| local := wall_clock 2024 1 15 23 0 0; utcoffset := -5 * 3600 |}.
Definition new_york_summer : datetimetz :=
  {| local := wall_clock 2024 7 15 23 0 0; utcoffset := -4 * 3600 |}.
Definition winter_in_utc : datetimetz :=
  {| local := wall_clock 2024 1 16 4 0 0; utcoffset := 0 |}.

(** The column [timestamptz] of the router test of MSSQL: declared
    [timestamp] in the manifest, with the value of
    [cast('2024-01-01T23:59:59' as timestamp with time zone)]. *)
Definition mssql_timestamptz : ResultColumn :=
  {| declared := TIMESTAMP;
     cells := [TimestampTz {| local := wall_clock 2024 1 1 23 59 59; utcoffset := 0 |}] |}.

(** The columns [timestamp] and [test_null_time] of the same test. *)
Definition mssql_timestamp : ResultColumn :=
  {| declared := TIMESTAMP; cells := [Timestamp (wall_clock 2024 1 1 23 59 59)] |}.
Definition mssql_null_time : ResultColumn :=
  {| declared := TIMESTAMP; cells := [Null] |}.

(** The columns [dst_utc_minus_5] and [dst_utc_minus_4] of the router test
    of Postgres, as a session in the zone of New York shows them. *)
Definition postgres_dst : list ResultColumn :=
  [ {| declared := TIMESTAMPTZ; cells := [TimestampTz new_york_winter] |};
    {| declared := TIMESTAMPTZ; cells := [TimestampTz new_york_summer] |} ].

(** A registry call with a check that accepts. *)
Definition accept (_ _ : unit) (_ : PyDict.dict str) : outcome := Success.

Definition only_model_name : PyDict.dict str := [(lit "modelName", lit "Orders")].
Definition only_column_name : PyDict.dict str := [(lit "columnName", lit "orderkey")].

End Samples.


(* ===================================================================== *)
(** ** Facts about strings and dictionaries                               *)
(* ===================================================================== *)

Module PyFacts.

Lemma eqb_eq (a b : str) : PyStr.eqb a b = true <-> a = b.
Proof.
  unfold PyStr.eqb. destruct (str_eq_dec a b); split; congruence.
Qed.

Lemma eqb_neq (a b : str) : PyStr.eqb a b = false <-> a <> b.
Proof.
  unfold PyStr.eqb. destruct (str_eq_dec a b); split; congruence.
Qed.

Lemma eqb_refl (a : str) : PyStr.eqb a a = true.
Proof. now apply eqb_eq. Qed.

Lemma eqb_sym (a b : str) : PyStr.eqb a b = PyStr.eqb b a.
Proof.
  destruct (PyStr.eqb b a) eqn:E.
  - apply eqb_eq in E. subst. apply eqb_refl.
  - apply eqb_neq in E. apply eqb_neq. congruence.
Qed.

Section Dict.
Variable V : Type.
Implicit Types (d : PyDict.dict V) (k : str).

Lemma lookup_None d k : PyDict.lookup d k = None <-> ~ In k (PyDict.keys d).
Proof.
  induction d as [|[k' v] d IH]; simpl.
  - tauto.
  - destruct (PyStr.eqb k' k) eqn:E.
    + apply eqb_eq in E. split; [discriminate | tauto].
    + apply eqb_neq in E. rewrite IH. tauto.
Qed.

Lemma contains_false d k : PyDict.contains d k = false <-> ~ In k (PyDict.keys d).
Proof.
  unfold PyDict.contains. rewrite <- lookup_None.
  destruct (PyDict.lookup d k); split; congruence.
Qed.

Lemma contains_true d k : PyDict.contains d k = true <-> In k (PyDict.keys d).
Proof.
  destruct (PyDict.contains d k) eqn:E.
  - split; [intros _ | reflexivity].
    destruct (in_dec str_eq_dec k (PyDict.keys d)) as [i|n]; [exact i|].
    apply contains_false in n. congruence.
  - apply contains_false in E. split; [discriminate | tauto].
Qed.

(** A lookup with default falls back on the default off the table. *)
Lemma get_absent d k (default : V) :
  ~ In k (PyDict.keys d) -> PyDict.get d k default = default.
Proof.
  intros H. unfold PyDict.get. apply lookup_None in H. now rewrite H.
Qed.

Lemma get_present d k (default : V) :
  In k (PyDict.keys d) -> exists v, In (k, v) d /\ PyDict.get d k default = v.
Proof.
  unfold PyDict.get.
  induction d as [|[k' v] d IH]; simpl; [tauto|].
  intros H. destruct (PyStr.eqb k' k) eqn:E.
  - apply eqb_eq in E. subst. eauto.
  - apply eqb_neq in E. destruct H as [H|H]; [contradiction|].
    destruct (IH H) as (w & Hin & Hw). eauto.
Qed.

(** Storing under a new key appends the entry. *)
Lemma set_absent d k (v : V) :
  PyDict.contains d k = false -> PyDict.set d k v = d ++ [(k, v)].
Proof.
  unfold PyDict.contains.
  induction d as [|[k' v'] d IH]; simpl; [reflexivity|].
  destruct (PyStr.eqb k' k); [discriminate|].
  intros H. now rewrite IH.
Qed.

Lemma alter_absent (f : V -> V) d k :
  PyDict.contains d k = false -> PyDict.alter f d k = d.
Proof.
  unfold PyDict.contains, PyDict.alter.
  induction d as [|[k' v'] d IH]; simpl; [reflexivity|].
  destruct (PyStr.eqb k' k); [discriminate|].
  intros H. now rewrite IH.
Qed.

Lemma alter_app (f : V -> V) d1 d2 k :
  PyDict.alter f (d1 ++ d2) k = PyDict.alter f d1 k ++ PyDict.alter f d2 k.
Proof. unfold PyDict.alter. apply map_app. Qed.

Lemma contains_alter (f : V -> V) d k k' :
  PyDict.contains (PyDict.alter f d k) k' = PyDict.contains d k'.
Proof.
  unfold PyDict.contains, PyDict.alter.
  induction d as [|[k0 v0] d IH]; simpl; [reflexivity|].
  destruct (PyStr.eqb k0 k); simpl; destruct (PyStr.eqb k0 k'); auto.
Qed.

Lemma contains_app d1 d2 k :
  PyDict.contains (d1 ++ d2) k = PyDict.contains d1 k || PyDict.contains d2 k.
Proof.
  unfold PyDict.contains.
  induction d1 as [|[k0 v0] d1 IH]; simpl; [now destruct (PyDict.lookup d2 k)|].
  destruct (PyStr.eqb k0 k); auto.
Qed.
End Dict.

(** *** Case mapping on ASCII *)

Local Open Scope N_scope.

Lemma lower_cp_ascii c : c < 128 ->
  lower_cp c = [if between 0x41 0x5A c then c + 32 else c].
Proof.
  intros H. unfold lower_cp, between.
  destruct (0x41 <=? c) eqn:E1, (c <=? 0x5A) eqn:E2; simpl; try reflexivity;
    repeat match goal with
           | |- context [?a <=? ?b] => destruct (N.leb_spec a b); try lia; simpl
           | |- context [?a =? ?b] => destruct (N.eqb_spec a b); try lia; simpl
           end; reflexivity.
Qed.

Lemma upper_cp_ascii c : c < 128 ->
  upper_cp c = [if between 0x61 0x7A c then c - 32 else c].
Proof.
  intros H. unfold upper_cp, between.
  destruct (0x61 <=? c) eqn:E1, (c <=? 0x7A) eqn:E2; simpl; try reflexivity;
    repeat match goal with
           | |- context [?a <=? ?b] => destruct (N.leb_spec a b); try lia; simpl
           | |- context [?a =? ?b] => destruct (N.eqb_spec a b); try lia; simpl
           end; reflexivity.
Qed.

(** On an ASCII code point, lowering undoes raising and is idempotent. *)
Lemma lower_upper_cp c : c < 128 -> flat_map lower_cp (upper_cp c) = lower_cp c.
Proof.
  intros H. rewrite (upper_cp_ascii H). simpl. rewrite app_nil_r.
  rewrite (lower_cp_ascii H). unfold between.
  destruct (N.leb_spec 0x61 c), (N.leb_spec c 0x7A); simpl;
    rewrite lower_cp_ascii by lia; unfold between;
    repeat match goal with
           | |- context [?a <=? ?b] => destruct (N.leb_spec a b); try lia; simpl
           end; try reflexivity; f_equal; lia.
Qed.

Lemma lower_lower_cp c : c < 128 -> flat_map lower_cp (lower_cp c) = lower_cp c.
Proof.
  intros H. rewrite (lower_cp_ascii H). simpl. rewrite app_nil_r.
  unfold between.
  destruct (N.leb_spec 0x41 c), (N.leb_spec c 0x5A); simpl;
    rewrite lower_cp_ascii by lia; unfold between;
    repeat match goal with
           | |- context [?a <=? ?b] => destruct (N.leb_spec a b); try lia; simpl
           end; reflexivity.
Qed.

Lemma lower_app a b : lower (a ++ b) = lower a ++ lower b.
Proof. apply flat_map_app. Qed.

Lemma lower_upper_ascii s : isascii s = true -> lower (upper s) = lower s.
Proof.
  unfold lower, upper.
  induction s as [|c s IH]; simpl; [reflexivity|].
  intros H. apply andb_prop in H. destruct H as [Hc Hs].
  apply N.ltb_lt in Hc.
  rewrite flat_map_app, (lower_upper_cp Hc), (IH Hs). reflexivity.
Qed.

Lemma lower_lower_ascii s : isascii s = true -> lower (lower s) = lower s.
Proof.
  unfold lower.
  induction s as [|c s IH]; simpl; [reflexivity|].
  intros H. apply andb_prop in H. destruct H as [Hc Hs].
  apply N.ltb_lt in Hc.
  rewrite flat_map_app, (lower_lower_cp Hc), (IH Hs). reflexivity.
Qed.

End PyFacts.

(* ===================================================================== *)
(** ** The canonical type of a native type name                           *)
(* ===================================================================== *)

Module CanonicalType.
Import SnowflakeMetadata PyFacts Samples.

(** The lookup is made on the lowered name. *)
Lemma transform_lowered (data_type : str) :
  _transform_column_type data_type = PyDict.get switcher (lower data_type) UNKNOWN.
Proof. reflexivity. Qed.

(** No name of the table is mapped to [UNKNOWN]. *)
Lemma switcher_known : Forall (fun e => snd e <> UNKNOWN) switcher.
Proof. unfold switcher. repeat constructor; discriminate. Qed.

(** A name the table has, in whatever letter case, gets a known type. *)
Lemma transform_mapped (data_type : str) :
  In (lower data_type) (PyDict.keys switcher) ->
  _transform_column_type data_type <> UNKNOWN.
Proof.
  intros H. rewrite transform_lowered.
  destruct (@get_present _ switcher _ UNKNOWN H) as (v & Hin & ->).
  pose proof switcher_known as K. rewrite Forall_forall in K.
  exact (K _ Hin).
Qed.

(** C1. A native type name that the mapping table of Snowflake does not
    have (looked up, as the table is, by its lowered form) is given the
    type [UNKNOWN]; [_transform_column_type] is a total function, so no
    name makes it raise. *)
Theorem transform_unmapped_is_unknown (data_type : str)
    (H : ~ In (lower data_type) (PyDict.keys switcher)) :
  _transform_column_type data_type = UNKNOWN.
Proof.
  rewrite transform_lowered. now apply get_absent.
Qed.

Lemma transform_unmapped_is_unknown_witness :
  ~ In (lower (lit "GEOGRAPHY")) (PyDict.keys switcher)
  /\ _transform_column_type (lit "GEOGRAPHY") = UNKNOWN.
Proof.
  assert (H : ~ In (lower (lit "GEOGRAPHY")) (PyDict.keys switcher)).
  { apply (proj1 (lookup_None switcher (lower (lit "GEOGRAPHY")))).
    vm_compute. reflexivity. }
  split; [exact H | exact (transform_unmapped_is_unknown (lit "GEOGRAPHY") H)].
Defined.

(** *** Names of the table are ASCII *)

(** An ASCII code point other than [k], the only ASCII letter that a
    non-ASCII code point (the Kelvin sign) is lowered to. *)
Lemma lower_cp_from_ascii c :
  forallb (fun x => (x <? 128) && negb (x =? 0x6B))%N (lower_cp c) = true ->
  (c <? 128)%N = true.
Proof.
  unfold lower_cp.
  repeat match goal with
         | |- context [if ?b then _ else _] => destruct b
         end; cbn [forallb]; rewrite ?andb_true_iff, ?negb_true_iff;
    rewrite ?N.ltb_lt, ?N.eqb_neq; intros; try lia;
    repeat match goal with H : _ /\ _ |- _ => destruct H end;
    try discriminate; try lia.
Qed.

Lemma lower_from_ascii s :
  forallb (fun x => (x <? 128) && negb (x =? 0x6B))%N (lower s) = true ->
  isascii s = true.
Proof.
  unfold lower, isascii.
  induction s as [|c s IH]; simpl; [reflexivity|].
  rewrite forallb_app, andb_true_iff. intros [Hc Hs].
  now rewrite (lower_cp_from_ascii _ Hc), IH.
Qed.

(** A name known to the table, in whatever letter case, is ASCII. *)
Lemma known_name_isascii (data_type : str) :
  In (lower data_type) (PyDict.keys switcher) -> isascii data_type = true.
Proof.
  intros H. apply lower_from_ascii.
  assert (K : Forall (fun k => forallb (fun x => (x <? 128) && negb (x =? 0x6B))%N k = true)
                     (PyDict.keys switcher))
    by (repeat constructor).
  rewrite Forall_forall in K. exact (K _ H).
Qed.

(** C2, as stated, fails: [ſtring] is unmapped while its upper-cased form
    is mapped to [STRING]. *)
Lemma transform_upper_differs :
  _transform_column_type long_s_tring <> _transform_column_type (upper long_s_tring).
Proof. vm_compute. discriminate. Qed.

(** *** Lowering twice *)

Lemma lower_cp_outside (c : codepoint) :
  (0x17F < c)%N -> c <> 0x212A%N -> lower_cp c = [c].
Proof.
  intros H K. unfold lower_cp, between.
  repeat match goal with
         | |- context [N.leb ?a ?b] => destruct (N.leb_spec a b); try lia
         | |- context [N.eqb ?a ?b] => destruct (N.eqb_spec a b); try lia
         end; reflexivity.
Qed.

Lemma in_modelled_range (c : codepoint) : (c <= 0x17F)%N -> In c modelled_range.
Proof.
  intros H. unfold modelled_range. apply in_map_iff. exists (N.to_nat c).
  split; [apply N2Nat.id|]. apply in_seq. lia.
Qed.

Lemma lower_cp_idempotent (c : codepoint) :
  flat_map lower_cp (lower_cp c) = lower_cp c.
Proof.
  destruct (N.leb_spec c 0x17F) as [H|H].
  - assert (A : forallb (fun c => PyStr.eqb (flat_map lower_cp (lower_cp c)) (lower_cp c))
                        modelled_range = true) by (vm_compute; reflexivity).
    rewrite forallb_forall in A. apply eqb_eq. apply A. now apply in_modelled_range.
  - destruct (N.eq_dec c 0x212A) as [->|K]; [reflexivity|].
    rewrite (@lower_cp_outside c H K). simpl.
    rewrite (@lower_cp_outside c H K). reflexivity.
Qed.

(** A lowered string is its own lowered form. *)
Lemma lower_idempotent (s : str) : lower (lower s) = lower s.
Proof.
  unfold lower. induction s as [|c s IH]; simpl; [reflexivity|].
  now rewrite flat_map_app, lower_cp_idempotent, IH.
Qed.

(** C2, amended. Every native type name is given the type of its
    lower-cased form, whether the table has the name or not; a name made of
    ASCII characters, as every name the table knows is, is also given the
    type of its upper-cased form. *)
Theorem transform_case_insensitive (data_type : str) :
  _transform_column_type data_type = _transform_column_type (lower data_type)
  /\ (isascii data_type = true ->
      _transform_column_type data_type = _transform_column_type (upper data_type)
      /\ _transform_column_type (upper data_type)
         = _transform_column_type (lower data_type)).
Proof.
  rewrite !transform_lowered, lower_idempotent.
  split; [reflexivity|]. intros H.
  rewrite (lower_upper_ascii _ H). split; reflexivity.
Qed.

Lemma transform_case_insensitive_witness :
  isascii (lit "Timestamp_TZ") = true
  /\ _transform_column_type (lit "Timestamp_TZ") = TIMESTAMPTZ
  /\ _transform_column_type (upper (lit "Timestamp_TZ")) = TIMESTAMPTZ
  /\ _transform_column_type (lower (lit "Timestamp_TZ")) = TIMESTAMPTZ
  /\ _transform_column_type (lower long_s_tring) = _transform_column_type long_s_tring.
Proof.
  assert (H : isascii (lit "Timestamp_TZ") = true) by reflexivity.
  destruct (transform_case_insensitive (lit "Timestamp_TZ")) as [Hl Hu].
  destruct (Hu H) as [Hu1 Hu2].
  split; [exact H|].
  assert (E : _transform_column_type (lit "Timestamp_TZ") = TIMESTAMPTZ)
    by (vm_compute; reflexivity).
  split; [exact E|]. split; [now rewrite <- Hu1|]. split; [now rewrite <- Hl|].
  symmetry. exact (proj1 (transform_case_insensitive long_s_tring)).
Defined.

End CanonicalType.

(* ===================================================================== *)
(** ** [get_table_list]                                                   *)
(* ===================================================================== *)

Module TableList.
Import SnowflakeMetadata PyFacts Samples.

(** *** Appending columns *)

Lemma add_columns_cons table row rows :
  add_columns table (row :: rows)
  = add_columns (append_column (column_of_row row) table) rows.
Proof. reflexivity. Qed.

Lemma add_columns_fields table rows :
  Table.name (add_columns table rows) = Table.name table
  /\ Table.description (add_columns table rows) = Table.description table
  /\ Table.properties (add_columns table rows) = Table.properties table
  /\ Table.primaryKey (add_columns table rows) = Table.primaryKey table
  /\ Table.columns (add_columns table rows)
     = Table.columns table ++ map column_of_row rows.
Proof.
  revert table. induction rows as [|row rows IH]; intros table.
  - simpl. now rewrite app_nil_r.
  - rewrite add_columns_cons.
    destruct (IH (append_column (column_of_row row) table)) as (H1 & H2 & H3 & H4 & H5).
    rewrite H1, H2, H3, H4, H5. simpl. now rewrite <- app_assoc.
Qed.

(** *** The rows of a table *)

Lemma rows_of_cons_same row rest :
  rows_of (compact_name row) (row :: rest) = row :: rows_of (compact_name row) rest.
Proof. unfold rows_of. simpl. now rewrite eqb_refl. Qed.

Lemma rows_of_cons_other name row rest :
  PyStr.eqb name (compact_name row) = false ->
  rows_of name (row :: rest) = rows_of name rest.
Proof. intros H. unfold rows_of. simpl. rewrite eqb_sym. now rewrite H. Qed.

(** *** The loop computes the grouping *)

Lemma filter_filter {A} (p q : A -> bool) l :
  (forall x, p x = true -> q x = true) ->
  filter p (filter q l) = filter p l.
Proof.
  intros H. induction l as [|x l IH]; simpl; [reflexivity|].
  destruct (q x) eqn:Q; simpl.
  - destruct (p x); now rewrite IH.
  - destruct (p x) eqn:P; [apply H in P; congruence | exact IH].
Qed.

Lemma contains_key_in {V} (d : PyDict.dict V) e :
  In e d -> PyDict.contains d (fst e) = true.
Proof. intros H. apply contains_true. now apply in_map. Qed.

Lemma table_list_step_open d row :
  PyDict.contains d (compact_name row) = true ->
  table_list_step d row
  = PyDict.alter (append_column (column_of_row row)) d (compact_name row).
Proof.
  intros H. unfold table_list_step. fold (compact_name row). now rewrite H.
Qed.

Lemma table_list_step_new d row :
  PyDict.contains d (compact_name row) = false ->
  table_list_step d row
  = d ++ [(compact_name row,
           append_column (column_of_row row) (table_shell (compact_name row) row))].
Proof.
  intros H. unfold table_list_step. fold (compact_name row). rewrite H. simpl.
  rewrite set_absent by exact H. rewrite alter_app, alter_absent by exact H.
  unfold PyDict.alter. simpl. now rewrite eqb_refl.
Qed.

Lemma fold_grouped rows : forall d,
  fold_left table_list_step rows d
  = map (extended rows) d ++ unopened d (grouped rows).
Proof.
  induction rows as [|row rest IH]; intros d.
  - simpl. rewrite app_nil_r. symmetry.
    rewrite <- (map_id d) at 2. apply map_ext. now intros [k t].
  - simpl fold_left. set (n := compact_name row).
    destruct (PyDict.contains d n) eqn:C.
    + (* the table of the row is open *)
      rewrite table_list_step_open by exact C. rewrite IH. fold n. f_equal.
      * unfold PyDict.alter. rewrite map_map. apply map_ext.
        intros [k t]. unfold extended. cbn [fst snd].
        destruct (PyStr.eqb k n) eqn:E; cbn [fst snd].
        -- apply eqb_eq in E. subst k. unfold n.
           now rewrite rows_of_cons_same, add_columns_cons.
        -- now rewrite rows_of_cons_other by exact E.
      * unfold unopened. simpl. fold n. rewrite C. simpl.
        rewrite filter_filter.
        -- apply filter_ext. intros e. now rewrite contains_alter.
        -- intros e He. destruct (PyStr.eqb (fst e) n) eqn:E; [|reflexivity].
           apply eqb_eq in E. rewrite E, C in He. discriminate.
    + (* the row opens its table *)
      rewrite table_list_step_new by exact C. rewrite IH. fold n.
      rewrite map_app, <- app_assoc. f_equal.
      * apply map_ext_in. intros [k t] Hin. unfold extended. cbn [fst snd].
        assert (E : PyStr.eqb k n = false).
        { apply eqb_neq. intros ->.
          apply contains_key_in in Hin. simpl in Hin. congruence. }
        now rewrite rows_of_cons_other by exact E.
      * simpl. unfold extended at 1. simpl. f_equal.
        unfold unopened. simpl. fold n. rewrite C. simpl. f_equal.
        clear IH. induction (grouped rest) as [|e g IHg]; simpl; [reflexivity|].
        rewrite contains_app. unfold PyDict.contains at 2. simpl.
        rewrite (eqb_sym n (fst e)).
        destruct (PyStr.eqb (fst e) n) eqn:E; simpl.
        -- rewrite orb_true_r. simpl. exact IHg.
        -- rewrite orb_false_r.
           destruct (PyDict.contains d (fst e)); simpl; now rewrite IHg.
Qed.

Lemma unopened_nil g : unopened [] g = g.
Proof.
  unfold unopened. induction g as [|e g IH]; simpl; [reflexivity|].
  f_equal. exact IH.
Qed.

(** [get_table_list] returns the tables of the grouping. *)
Lemma get_table_list_grouped response :
  get_table_list response = PyDict.values (grouped response).
Proof.
  unfold get_table_list. rewrite fold_grouped. simpl. now rewrite unopened_nil.
Qed.

(** *** What the grouping holds *)

Lemma first_sightings_In names n : In n (first_sightings names) <-> In n names.
Proof.
  induction names as [|m names IH]; simpl; [tauto|].
  rewrite filter_In, IH, negb_true_iff, eqb_neq.
  destruct (str_eq_dec m n); intuition congruence.
Qed.

Lemma first_sightings_NoDup names : NoDup (first_sightings names).
Proof.
  induction names as [|m names IH]; simpl; constructor.
  - rewrite filter_In, negb_true_iff, eqb_neq. tauto.
  - now apply NoDup_filter.
Qed.

Lemma grouped_keys response :
  PyDict.keys (grouped response) = first_sightings (map compact_name response).
Proof.
  unfold PyDict.keys.
  induction response as [|row rest IH]; simpl; [reflexivity|].
  f_equal. rewrite <- IH. clear IH.
  induction (grouped rest) as [|e g IHg]; simpl; [reflexivity|].
  destruct (PyStr.eqb (fst e) (compact_name row)); simpl; now rewrite IHg.
Qed.

Lemma grouped_entries response : Forall (entry_of response) (grouped response).
Proof.
  induction response as [|row rest IH]; simpl; constructor.
  - exists row, (rows_of (compact_name row) rest). cbn [fst snd].
    now rewrite rows_of_cons_same.
  - rewrite Forall_forall in *. intros e He.
    apply filter_In in He. destruct He as [He Hn].
    apply negb_true_iff in Hn.
    destruct (IH e He) as (first & more & Hr & Ht).
    exists first, more. now rewrite rows_of_cons_other.
Qed.

Lemma entry_of_table response e :
  entry_of response e ->
  exists first more,
    rows_of (fst e) response = first :: more
    /\ Table.name (snd e) = fst e
    /\ Table.description (snd e) = TABLE_COMMENT first
    /\ Table.primaryKey (snd e) = lit ""
    /\ Table.properties (snd e)
       = TableProperties.make (TABLE_SCHEMA first) (TABLE_CATALOG first) (TABLE_NAME first)
    /\ Table.columns (snd e) = map column_of_row (first :: more).
Proof.
  intros (first & more & Hr & Ht). exists first, more.
  destruct (add_columns_fields (table_shell (fst e) first) (first :: more))
    as (H1 & H2 & H3 & H4 & H5).
  rewrite Ht, H1, H2, H3, H4, H5. simpl. tauto.
Qed.

Lemma grouped_names response :
  map Table.name (PyDict.values (grouped response)) = PyDict.keys (grouped response).
Proof.
  pose proof (grouped_entries response) as H.
  unfold PyDict.values, PyDict.keys. rewrite map_map.
  induction H as [|e g He Hg IH]; simpl; [reflexivity|].
  rewrite IH. f_equal.
  destruct (entry_of_table He) as (first & more & _ & Hn & _). exact Hn.
Qed.

(** The tables of the response, each with the rows it was made of. *)
Lemma get_table_list_tables response :
  Forall (fun t =>
    exists first more,
      rows_of (Table.name t) response = first :: more
      /\ Table.description t = TABLE_COMMENT first
      /\ Table.primaryKey t = lit ""
      /\ Table.properties t
         = TableProperties.make (TABLE_SCHEMA first) (TABLE_CATALOG first)
                                (TABLE_NAME first)
      /\ Table.columns t = map column_of_row (first :: more))
    (get_table_list response).
Proof.
  rewrite get_table_list_grouped. unfold PyDict.values.
  rewrite Forall_map.
  eapply Forall_impl; [|apply grouped_entries].
  intros e He. destruct (entry_of_table He) as (first & more & Hr & Hn & H).
  exists first, more. rewrite Hn. tauto.
Qed.

Lemma get_table_list_names response :
  map Table.name (get_table_list response)
  = first_sightings (map compact_name response).
Proof.
  now rewrite get_table_list_grouped, grouped_names, grouped_keys.
Qed.

(** C3. [get_table_list] returns one table for each distinct compact name
    [schema.table] of the response, in the order in which the names are
    first seen, which need not be the alphabetical one; a table has the
    comment of the first row of its group as description, the empty
    primary key, and one column for each row of its group, in row order
    (the shell starts with no column). *)
Theorem get_table_list_groups_rows (response : list ColumnsRow) :
  map Table.name (get_table_list response)
    = first_sightings (map compact_name response)
  /\ NoDup (map Table.name (get_table_list response))
  /\ (forall n, In n (map Table.name (get_table_list response))
                <-> In n (map compact_name response))
  /\ Forall (fun t =>
        exists first more,
          rows_of (Table.name t) response = first :: more
          /\ Table.description t = TABLE_COMMENT first
          /\ Table.primaryKey t = lit ""
          /\ Table.properties t
             = TableProperties.make (TABLE_SCHEMA first) (TABLE_CATALOG first)
                                    (TABLE_NAME first)
          /\ Table.columns t = map column_of_row (first :: more))
      (get_table_list response)
  /\ (forall name row, Table.columns (table_shell name row) = [])
  /\ map Table.name (get_table_list Samples.response)
     = [lit "PUBLIC.ORDERS"; lit "PUBLIC.CUSTOMER"].
Proof.
  rewrite get_table_list_names.
  split; [reflexivity|]. split; [apply first_sightings_NoDup|].
  split; [intros n; apply first_sightings_In|].
  split; [apply get_table_list_tables|].
  split; reflexivity.
Qed.

(** C4. The column made of a row is in the table of that row, and it is
    marked not null exactly when the [IS_NULLABLE] cell of the row equals
    ["NO"] up to letter case. *)
Theorem column_not_null_iff_no (response : list ColumnsRow) (row : ColumnsRow)
    (H : In row response) :
  exists table,
    In table (get_table_list response)
    /\ Table.name table = compact_name row
    /\ In (column_of_row row) (Table.columns table)
    /\ (Column.notNull (column_of_row row) = true
        <-> lower (IS_NULLABLE row) = lower (lit "NO")).
Proof.
  assert (Hn : In (compact_name row) (map Table.name (get_table_list response))).
  { rewrite get_table_list_names. apply first_sightings_In. now apply in_map. }
  apply in_map_iff in Hn. destruct Hn as (table & Hname & Hin).
  exists table. split; [exact Hin|]. split; [exact Hname|]. split.
  - pose proof (get_table_list_tables response) as F.
    rewrite Forall_forall in F.
    destruct (F table Hin) as (first & more & Hr & _ & _ & _ & Hc).
    rewrite Hc, <- Hr, Hname. apply in_map.
    unfold rows_of. apply filter_In. split; [exact H | apply eqb_refl].
  - simpl. apply eqb_eq.
Qed.

Lemma column_not_null_iff_no_witness :
  In (nth 2 Samples.response (hd_sample Samples.response)) Samples.response
  /\ exists table,
       In table (get_table_list Samples.response)
       /\ Table.name table = lit "PUBLIC.ORDERS"
       /\ In (column_of_row (nth 2 Samples.response (hd_sample Samples.response)))
             (Table.columns table).
Proof.
  assert (H : In (nth 2 Samples.response (hd_sample Samples.response))
                 Samples.response) by (simpl; tauto).
  split; [exact H|].
  destruct (column_not_null_iff_no Samples.response _ H)
    as (table & Hin & Hname & Hcol & _).
  exists table. split; [exact Hin|]. split; [exact Hname | exact Hcol].
Defined.

End TableList.

(* ===================================================================== *)
(** ** [get_constraints]                                                  *)
(* ===================================================================== *)

Module Constraints.
Import SnowflakeMetadata PyFacts Samples.

Lemma getitem_Ok {V} (d : PyDict.dict V) k v :
  getitem d k = Ok v <-> PyDict.lookup d k = Some v.
Proof.
  unfold getitem. destruct (PyDict.lookup d k); split; congruence.
Qed.

Lemma contains_lookup {V} (d : PyDict.dict V) k :
  PyDict.contains d k = true -> exists v, PyDict.lookup d k = Some v.
Proof.
  unfold PyDict.contains. destruct (PyDict.lookup d k); [eauto | discriminate].
Qed.

(** The fields of the constraint made of a record. *)
Lemma constraint_of_row_inv row c :
  constraint_of_row row = Ok c ->
  exists pk_schema pk_table pk_column fk_schema fk_table fk_column,
    PyDict.lookup row (lit "pk_schema_name") = Some pk_schema
    /\ PyDict.lookup row (lit "pk_table_name") = Some pk_table
    /\ PyDict.lookup row (lit "pk_column_name") = Some pk_column
    /\ PyDict.lookup row (lit "fk_schema_name") = Some fk_schema
    /\ PyDict.lookup row (lit "fk_table_name") = Some fk_table
    /\ PyDict.lookup row (lit "fk_column_name") = Some fk_column
    /\ c = Constraint.make
             (_format_constraint_name pk_table pk_column fk_table fk_column)
             (_format_compact_table_name pk_schema pk_table) pk_column
             (_format_compact_table_name fk_schema fk_table) fk_column
             FOREIGN_KEY.
Proof.
  unfold constraint_of_row, getitem.
  destruct (PyDict.lookup row (lit "pk_table_name")) as [pkt|]; [|discriminate].
  destruct (PyDict.lookup row (lit "pk_column_name")) as [pkc|]; [|discriminate].
  destruct (PyDict.lookup row (lit "fk_table_name")) as [fkt|]; [|discriminate].
  destruct (PyDict.lookup row (lit "fk_column_name")) as [fkc|]; [|discriminate].
  destruct (PyDict.lookup row (lit "pk_schema_name")) as [pks|]; [|discriminate].
  destruct (PyDict.lookup row (lit "fk_schema_name")) as [fks|]; [|discriminate].
  cbn [Exc.bind]. intros E. injection E as <-.
  exists pks, pkt, pkc, fks, fkt, fkc. repeat split.
Qed.

(** A record with the six fields makes a constraint. *)
Lemma constraint_of_row_total row :
  has_key_columns row = true -> exists c, constraint_of_row row = Ok c.
Proof.
  unfold has_key_columns, key_columns. cbn [forallb].
  rewrite !andb_true_iff. intros (H1 & H2 & H3 & H4 & H5 & H6 & _).
  apply contains_lookup in H1, H2, H3, H4, H5, H6.
  destruct H1 as [v1 H1], H2 as [v2 H2], H3 as [v3 H3],
           H4 as [v4 H4], H5 as [v5 H5], H6 as [v6 H6].
  unfold constraint_of_row, getitem.
  rewrite H1, H2, H3, H4, H5, H6. cbn [Exc.bind]. eauto.
Qed.

(** The loop appends one constraint for each record, in order. *)
Lemma constraints_loop_ok res : forall constraints,
  Forall (fun row => has_key_columns row = true) res ->
  exists made,
    constraints_loop res constraints = Ok (constraints ++ made)
    /\ Forall2 (fun row c => constraint_of_row row = Ok c) res made.
Proof.
  induction res as [|row rest IH]; intros constraints F.
  - exists []. simpl. rewrite app_nil_r. split; [reflexivity | constructor].
  - inversion F as [|? ? Hrow Hrest]; subst.
    destruct (constraint_of_row_total _ Hrow) as [c Hc].
    destruct (IH (constraints ++ [c]) Hrest) as (made & Hloop & Hmade).
    exists (c :: made). simpl. rewrite Hc. cbn [Exc.bind].
    rewrite Hloop, <- app_assoc. split; [reflexivity | now constructor].
Qed.

Lemma get_constraints_ok memtable_records description fetched res :
  imported_keys memtable_records description fetched = Ok res ->
  Forall (fun row => has_key_columns row = true) res ->
  exists constraints,
    get_constraints memtable_records description fetched = Ok constraints
    /\ Forall2 (fun row c => constraint_of_row row = Ok c) res constraints.
Proof.
  intros Hres F. unfold get_constraints. rewrite Hres. cbn [Exc.bind].
  destruct (constraints_loop_ok [] F) as (made & Hloop & Hmade).
  exists made. split; [exact Hloop | exact Hmade].
Qed.

(** C7. For each record of imported keys [get_constraints] makes one
    constraint whose name is the referenced (primary-key) table, the
    referenced column, the referencing (foreign-key) table and the
    referencing column, in that order, joined by single underscores.  The
    name is a function of these four, and two different edges can share
    it. *)
Theorem constraint_name_is_concatenation
    (memtable_records : list KeysRow -> exc (list KeysRow))
    (description : list (str * str)) (fetched : list (list str)) (res : list KeysRow)
    (Hres : imported_keys memtable_records description fetched = Ok res)
    (Hkeys : Forall (fun row => has_key_columns row = true) res) :
  (exists constraints,
     get_constraints memtable_records description fetched = Ok constraints
     /\ Forall2 (fun row c =>
          exists pk_table pk_column fk_table fk_column,
            PyDict.lookup row (lit "pk_table_name") = Some pk_table
            /\ PyDict.lookup row (lit "pk_column_name") = Some pk_column
            /\ PyDict.lookup row (lit "fk_table_name") = Some fk_table
            /\ PyDict.lookup row (lit "fk_column_name") = Some fk_column
            /\ Constraint.constraintName c
               = pk_table ++ lit "_" ++ pk_column ++ lit "_"
                 ++ fk_table ++ lit "_" ++ fk_column)
        res constraints)
  /\ _format_constraint_name (lit "A_B") (lit "C") (lit "D") (lit "E")
     = _format_constraint_name (lit "A") (lit "B_C") (lit "D") (lit "E").
Proof.
  split; [|reflexivity].
  destruct (get_constraints_ok _ _ _ Hres Hkeys) as (constraints & Hget & Hmade).
  exists constraints. split; [exact Hget|].
  eapply Forall2_impl; [|exact Hmade].
  intros row c Hc. apply constraint_of_row_inv in Hc.
  destruct Hc as (pks & pkt & pkc & fks & fkt & fkc & H1 & H2 & H3 & H4 & H5 & H6 & ->).
  exists pkt, pkc, fkt, fkc. repeat split; assumption.
Qed.

Lemma sample_imported_keys :
  exists res,
    imported_keys plain_records keys_description keys_fetched = Ok res
    /\ Forall (fun row => has_key_columns row = true) res.
Proof.
  eexists. split; [reflexivity|]. repeat constructor.
Defined.

Lemma constraint_name_is_concatenation_witness :
  exists constraints,
    get_constraints plain_records keys_description keys_fetched = Ok constraints
    /\ map Constraint.constraintName constraints
       = [lit "CUSTOMER_C_CUSTKEY_ORDERS_O_CUSTKEY"].
Proof.
  destruct sample_imported_keys as (res & Hres & Hkeys).
  destruct (constraint_name_is_concatenation _ _ _ Hres Hkeys)
    as [(constraints & Hget & _) _].
  exists constraints. split; [exact Hget|].
  vm_compute in Hget. injection Hget as <-. reflexivity.
Defined.

(** C8. When the cursor has no row, [get_constraints] returns the empty
    list and raises nothing, whatever the header of the cursor is and
    whatever the data-frame round trip would do. *)
Theorem get_constraints_no_foreign_key
    (memtable_records : list KeysRow -> exc (list KeysRow))
    (description : list (str * str)) :
  get_constraints memtable_records description [] = Ok [].
Proof. reflexivity. Qed.

(** C10. In each constraint of [get_constraints] the table and column are
    those of the primary-key side and the constrained table and column
    those of the foreign-key side; each table is named [schema.table] with
    the schema of its own side; the type is [FOREIGN_KEY]. *)
Theorem constraint_sides
    (memtable_records : list KeysRow -> exc (list KeysRow))
    (description : list (str * str)) (fetched : list (list str)) (res : list KeysRow)
    (Hres : imported_keys memtable_records description fetched = Ok res)
    (Hkeys : Forall (fun row => has_key_columns row = true) res) :
  exists constraints,
    get_constraints memtable_records description fetched = Ok constraints
    /\ Forall2 (fun row c =>
         exists pk_schema pk_table pk_column fk_schema fk_table fk_column,
           PyDict.lookup row (lit "pk_schema_name") = Some pk_schema
           /\ PyDict.lookup row (lit "pk_table_name") = Some pk_table
           /\ PyDict.lookup row (lit "pk_column_name") = Some pk_column
           /\ PyDict.lookup row (lit "fk_schema_name") = Some fk_schema
           /\ PyDict.lookup row (lit "fk_table_name") = Some fk_table
           /\ PyDict.lookup row (lit "fk_column_name") = Some fk_column
           /\ Constraint.constraintTable c = pk_schema ++ lit "." ++ pk_table
           /\ Constraint.constraintColumn c = pk_column
           /\ Constraint.constraintedTable c = fk_schema ++ lit "." ++ fk_table
           /\ Constraint.constraintedColumn c = fk_column
           /\ Constraint.constraintType c = FOREIGN_KEY)
       res constraints.
Proof.
  destruct (get_constraints_ok _ _ _ Hres Hkeys) as (constraints & Hget & Hmade).
  exists constraints. split; [exact Hget|].
  eapply Forall2_impl; [|exact Hmade].
  intros row c Hc. apply constraint_of_row_inv in Hc.
  destruct Hc as (pks & pkt & pkc & fks & fkt & fkc & H1 & H2 & H3 & H4 & H5 & H6 & ->).
  exists pks, pkt, pkc, fks, fkt, fkc. repeat split; assumption.
Qed.

Lemma constraint_sides_witness :
  exists constraints,
    get_constraints plain_records keys_description keys_fetched = Ok constraints
    /\ map Constraint.constraintTable constraints = [lit "PUBLIC.CUSTOMER"]
    /\ map Constraint.constraintedTable constraints = [lit "SALES.ORDERS"].
Proof.
  destruct sample_imported_keys as (res & Hres & Hkeys).
  destruct (constraint_sides _ _ _ Hres Hkeys) as (constraints & Hget & _).
  exists constraints. split; [exact Hget|].
  vm_compute in Hget. injection Hget as <-. split; reflexivity.
Defined.

End Constraints.

(* ===================================================================== *)
(** ** Row limit and timestamps of the executor                           *)
(* ===================================================================== *)

Module Executor.
Import QueryExecutor ResultFormat PyFacts Samples.

Lemma execute_length {Row} (rows : list Row) (embedded caller : option nat) :
  List.length (execute rows embedded caller)
  = match governing_limit caller embedded with
    | Some n => Nat.min n (List.length rows)
    | None => List.length rows
    end.
Proof.
  unfold execute. destruct (governing_limit caller embedded); [|reflexivity].
  apply length_firstn.
Qed.

(** C5. With a caller limit the number of rows returned is the smaller of
    that limit and the limit of the SQL text (and of the rows there are),
    so the caller limit never returns more rows than the text allows; on a
    query that yields a row, the caller limit 1 returns one row, with
    [LIMIT 10] in the text or with no limit in it. *)
Theorem caller_limit_governs (Row : Type) (rows : list Row) (H : rows <> []) :
  List.length (execute rows (Some 10%nat) (Some 1%nat)) = 1%nat
  /\ List.length (execute rows None (Some 1%nat)) = 1%nat
  /\ (forall c e, List.length (execute rows (Some e) (Some c))
                  = Nat.min (Nat.min c e) (List.length rows))
  /\ (forall c, List.length (execute rows None (Some c))
                = Nat.min c (List.length rows))
  /\ (forall c e, List.length (execute rows (Some e) (Some c))
                  <= List.length (execute rows (Some e) None))%nat.
Proof.
  assert (L : (1 <= List.length rows)%nat).
  { destruct rows; [congruence | simpl; lia]. }
  repeat split; intros; rewrite !execute_length; unfold governing_limit; lia.
Qed.

Lemma caller_limit_governs_witness :
  [3%nat; 1%nat; 2%nat] <> []
  /\ execute [3%nat; 1%nat; 2%nat] (Some 10%nat) (Some 1%nat) = [3%nat]
  /\ List.length (execute [3%nat; 1%nat; 2%nat] None (Some 1%nat)) = 1%nat.
Proof.
  assert (H : [3%nat; 1%nat; 2%nat] <> []) by discriminate.
  destruct (caller_limit_governs H) as (_ & H1 & _).
  split; [exact H|]. split; [reflexivity | exact H1].
Defined.

(** *** The calendar *)

Local Open Scope Z_scope.

Lemma year_of_era doe : 0 <= doe < 146097 ->
  let yoe := (doe - doe / 1460 + doe / 36524 - doe / 146096) / 365 in
  let doy := doe - (365 * yoe + yoe / 4 - yoe / 100) in
  0 <= yoe < 400 /\ 0 <= doy <= 365.
Proof.
  intros H yoe doy. subst yoe doy.
  Z.div_mod_to_equations; lia.
Qed.

Lemma month_of_year doy : 0 <= doy <= 365 ->
  let mp := (5 * doy + 2) / 153 in
  let m := if mp <? 10 then mp + 3 else mp - 9 in
  1 <= m <= 12 /\ (m + 9) mod 12 = mp.
Proof.
  intros H mp m. subst m.
  assert (0 <= mp <= 11) by (subst mp; Z.div_mod_to_equations; lia).
  destruct (Z.ltb_spec mp 10); (split; [lia | Z.div_mod_to_equations; lia]).
Qed.

(** The day count of the civil date of a day count is that day count. *)
Lemma days_from_civil_from_days z :
  let '(y, m, d) := civil_from_days z in days_from_civil y m d = z.
Proof.
  unfold civil_from_days, days_from_civil.
  set (era := (z + 719468) / 146097).
  set (doe := z + 719468 - era * 146097).
  assert (Hdoe : 0 <= doe < 146097) by (subst doe era; Z.div_mod_to_equations; lia).
  set (yoe := (doe - doe / 1460 + doe / 36524 - doe / 146096) / 365).
  set (doy := doe - (365 * yoe + yoe / 4 - yoe / 100)).
  destruct (@year_of_era doe Hdoe) as [Hyoe Hdoy].
  fold yoe in Hyoe, Hdoy. fold doy in Hdoy.
  set (mp := (5 * doy + 2) / 153).
  destruct (@month_of_year doy Hdoy) as (Hm & Hmp). fold mp in Hm, Hmp.
  set (m := if mp <? 10 then mp + 3 else mp - 9) in *.
  rewrite Hmp.
  assert (Hy : (if m <=? 2
                then (if m <=? 2 then yoe + era * 400 + 1 else yoe + era * 400) - 1
                else (if m <=? 2 then yoe + era * 400 + 1 else yoe + era * 400))
               = yoe + era * 400) by (destruct (m <=? 2); lia).
  rewrite Hy.
  assert (He : (yoe + era * 400) / 400 = era) by (Z.div_mod_to_equations; lia).
  rewrite He. replace (yoe + era * 400 - era * 400) with yoe by lia.
  unfold doy, doe. lia.
Qed.

(** The wall clock of an instant denotes that instant. *)
Lemma micros_of_datetime_of_micros us :
  micros_of_datetime (datetime_of_micros us) = us.
Proof.
  unfold datetime_of_micros.
  pose proof (days_from_civil_from_days (us / 1000000 / 86400)) as D.
  destruct (civil_from_days (us / 1000000 / 86400)) as [[y m] d].
  unfold micros_of_datetime. cbn [year month day hour minute second microsecond].
  rewrite D. Z.div_mod_to_equations; lia.
Qed.

Lemma to_utc_instant v : micros_of_datetime (to_utc v) = instant v.
Proof. apply micros_of_datetime_of_micros. Qed.

Local Close Scope Z_scope.

Lemma digits_length width n : List.length (digits width n) = width.
Proof.
  revert n. induction width as [|w IH]; intros n; simpl; [reflexivity|].
  rewrite length_app, IH. simpl. lia.
Qed.

(** A rendered timestamp has always the same length. *)
Lemma format_timestamp_length t : List.length (format_timestamp t) = 26%nat.
Proof.
  unfold format_timestamp. rewrite !length_app, !digits_length. reflexivity.
Qed.

(** The renderings the router tests expect. *)
Lemma format_timestamp_test :
  format_timestamp (wall_clock 2024 1 1 23 59 59) = lit "2024-01-01 23:59:59.000000".
Proof. vm_compute. reflexivity. Qed.

Lemma format_timestamptz_test :
  format_timestamptz new_york_winter = lit "2024-01-16 04:00:00.000000 UTC"
  /\ format_timestamptz new_york_summer = lit "2024-07-16 03:00:00.000000 UTC".
Proof. split; vm_compute; reflexivity. Qed.

(** *** The wall clock of an instant is the only one *)

Local Open Scope Z_scope.

Lemma is_leap_spec y :
  is_leap y = true <-> y mod 4 = 0 /\ (y mod 100 <> 0 \/ y mod 400 = 0).
Proof.
  unfold is_leap.
  destruct (Z.eqb_spec (y mod 4) 0), (Z.eqb_spec (y mod 100) 0),
           (Z.eqb_spec (y mod 400) 0); cbn; intuition (try discriminate; try lia).
Qed.

Lemma last_day_spec y m d :
  1 <= m <= 12 ->
  (1 <= d <= last_day y m
   <-> 1 <= d <= 31
       /\ (m = 4 \/ m = 6 \/ m = 9 \/ m = 11 -> d <= 30)
       /\ (m = 2 -> d <= 29 /\ (d = 29 -> is_leap y = true))).
Proof.
  intros Hm. unfold last_day.
  destruct (Z.eqb_spec m 2), (Z.eqb_spec m 4), (Z.eqb_spec m 6),
           (Z.eqb_spec m 9), (Z.eqb_spec m 11); cbn [orb];
    try lia; destruct (is_leap y); intuition (try discriminate; try lia).
Qed.

Lemma year_of_doe yoe doy :
  0 <= yoe < 400 -> 0 <= doy ->
  (doy <= 364
   \/ (doy = 365 /\ (yoe + 1) mod 4 = 0 /\ ((yoe + 1) mod 100 <> 0 \/ yoe = 399))) ->
  let doe := 365 * yoe + yoe / 4 - yoe / 100 + doy in
  0 <= doe < 146097
  /\ (doe - doe / 1460 + doe / 36524 - doe / 146096) / 365 = yoe.
Proof.
  intros Hy Hd Hl doe. subst doe. Z.div_mod_to_equations; lia.
Qed.

Lemma month_of_doy mp d :
  0 <= mp <= 11 -> 1 <= d <= 31 ->
  (mp = 1 \/ mp = 3 \/ mp = 6 \/ mp = 8 -> d <= 30) ->
  (mp = 11 -> d <= 29) ->
  let doy := (153 * mp + 2) / 5 + d - 1 in
  (5 * doy + 2) / 153 = mp /\ 0 <= doy <= 365 /\ (mp <> 11 \/ d <= 28 -> doy <= 364).
Proof.
  intros Hm Hd H30 H29 doy. subst doy.
  assert (M : mp = 0 \/ mp = 1 \/ mp = 2 \/ mp = 3 \/ mp = 4 \/ mp = 5 \/ mp = 6
              \/ mp = 7 \/ mp = 8 \/ mp = 9 \/ mp = 10 \/ mp = 11) by lia.
  destruct M as [->|[->|[->|[->|[->|[->|[->|[->|[->|[->|[->| ->]]]]]]]]]]];
    (Z.div_mod_to_equations; lia).
Qed.

(** The civil date of the day count of a date of the calendar is that date. *)
Lemma civil_from_days_from_civil y m d :
  valid_date y m d -> civil_from_days (days_from_civil y m d) = (y, m, d).
Proof.
  intros [Hm Hd]. apply (@last_day_spec y m d Hm) in Hd.
  destruct Hd as (Hd & H30 & H29).
  unfold civil_from_days, days_from_civil.
  set (y' := if m <=? 2 then y - 1 else y).
  set (era := y' / 400).
  set (yoe := y' - era * 400).
  set (mp := (m + 9) mod 12).
  set (doy := (153 * mp + 2) / 5 + d - 1).
  assert (Hyoe : 0 <= yoe < 400) by (subst yoe era; Z.div_mod_to_equations; lia).
  assert (Hmp : 0 <= mp <= 11 /\ (m <= 2 -> mp = m + 9) /\ (3 <= m -> mp = m - 3))
    by (subst mp; Z.div_mod_to_equations; lia).
  destruct Hmp as (Hmp & Hjf & Hmd).
  destruct (@month_of_doy mp d Hmp Hd) as (Emp & Hdoy & H364); [lia | lia |].
  fold doy in Emp, Hdoy, H364.
  assert (Hleap : doy <= 364
                  \/ (doy = 365 /\ (yoe + 1) mod 4 = 0
                      /\ ((yoe + 1) mod 100 <> 0 \/ yoe = 399))).
  { destruct (Z.eq_dec m 2) as [E2|N2]; [|left; apply H364; lia].
    destruct (Z.eq_dec d 29) as [E29|N29]; [|left; apply H364; lia].
    right. destruct (H29 E2) as [_ L]. pose proof (L E29) as Lp.
    apply is_leap_spec in Lp.
    assert (Y : y' = y - 1) by (subst y'; destruct (Z.leb_spec m 2); lia).
    split; [subst doy; Z.div_mod_to_equations; lia|].
    subst yoe era. rewrite Y. Z.div_mod_to_equations; lia. }
  destruct (@year_of_doe yoe doy Hyoe (proj1 Hdoy) Hleap) as (Hdoe & Eyoe).
  set (doe := 365 * yoe + yoe / 4 - yoe / 100 + doy) in *.
  replace (yoe * 365 + yoe / 4 - yoe / 100 + doy) with doe by (subst doe; lia).
  replace (era * 146097 + doe - 719468 + 719468) with (era * 146097 + doe) by lia.
  assert (Eera : (era * 146097 + doe) / 146097 = era) by (Z.div_mod_to_equations; lia).
  rewrite Eera.
  replace (era * 146097 + doe - era * 146097) with doe by lia.
  rewrite Eyoe.
  replace (doe - (365 * yoe + yoe / 4 - yoe / 100)) with doy by (subst doe; lia).
  rewrite Emp.
  assert (Em : (if mp <? 10 then mp + 3 else mp - 9) = m)
    by (destruct (Z.ltb_spec mp 10); lia).
  rewrite Em.
  assert (Ey : (if m <=? 2 then yoe + era * 400 + 1 else yoe + era * 400) = y)
    by (subst yoe y'; destruct (Z.leb_spec m 2); lia).
  rewrite Ey. f_equal. subst doy. lia.
Qed.

Lemma leap_of_doe doe :
  0 <= doe < 146097 ->
  let yoe := (doe - doe / 1460 + doe / 36524 - doe / 146096) / 365 in
  let doy := doe - (365 * yoe + yoe / 4 - yoe / 100) in
  0 <= yoe < 400 /\ 0 <= doy <= 365
  /\ (doy = 365 -> (yoe + 1) mod 4 = 0 /\ ((yoe + 1) mod 100 <> 0 \/ yoe = 399)).
Proof.
  intros H yoe doy. subst yoe doy. Z.div_mod_to_equations; lia.
Qed.

Lemma day_of_doy doy :
  0 <= doy <= 365 ->
  let mp := (5 * doy + 2) / 153 in
  let d := doy - (153 * mp + 2) / 5 + 1 in
  0 <= mp <= 11 /\ 1 <= d <= 31
  /\ (mp = 1 \/ mp = 3 \/ mp = 6 \/ mp = 8 -> d <= 30)
  /\ (mp = 11 -> d <= 29 /\ (d = 29 -> doy = 365)).
Proof.
  intros H mp d. subst mp d. Z.div_mod_to_equations; lia.
Qed.

(** The civil date of a day count is a date of the calendar. *)
Lemma civil_from_days_valid z :
  let '(y, m, d) := civil_from_days z in valid_date y m d.
Proof.
  unfold civil_from_days.
  set (era := (z + 719468) / 146097).
  set (doe := z + 719468 - era * 146097).
  assert (Hdoe : 0 <= doe < 146097) by (subst doe era; Z.div_mod_to_equations; lia).
  destruct (@leap_of_doe doe Hdoe) as (Hyoe & Hdoy & Hleap).
  set (yoe := (doe - doe / 1460 + doe / 36524 - doe / 146096) / 365) in *.
  set (doy := doe - (365 * yoe + yoe / 4 - yoe / 100)) in *.
  destruct (@day_of_doy doy Hdoy) as (Hmp & Hd & H30 & H29).
  set (mp := (5 * doy + 2) / 153) in *.
  set (d := doy - (153 * mp + 2) / 5 + 1) in *.
  set (m := if mp <? 10 then mp + 3 else mp - 9).
  assert (Hm : 1 <= m <= 12 /\ (m <= 2 -> mp = m + 9) /\ (3 <= m -> mp = m - 3))
    by (subst m; destruct (Z.ltb_spec mp 10); lia).
  destruct Hm as (Hm & Hjf & Hmd).
  split; [exact Hm|]. apply (@last_day_spec _ m d Hm).
  split; [exact Hd|]. split; [intros; apply H30; lia|].
  intros E2. assert (E11 : mp = 11) by lia.
  destruct (H29 E11) as [L29 L365]. split; [exact L29|].
  intros E29. destruct (Hleap (L365 E29)) as [L4 L100].
  apply is_leap_spec.
  assert (Y : (if m <=? 2 then yoe + era * 400 + 1 else yoe + era * 400)
              = yoe + 1 + era * 400) by (destruct (Z.leb_spec m 2); lia).
  rewrite Y. Z.div_mod_to_equations; lia.
Qed.

(** The wall clock of an instant is a date of the calendar and a time of
    the clock. *)
Lemma datetime_of_micros_valid us : valid_datetime (datetime_of_micros us).
Proof.
  unfold datetime_of_micros.
  pose proof (civil_from_days_valid (us / 1000000 / 86400)) as V.
  destruct (civil_from_days (us / 1000000 / 86400)) as [[y m] d].
  unfold valid_datetime. cbn [year month day hour minute second microsecond].
  split; [exact V|]. Z.div_mod_to_equations; lia.
Qed.

(** A valid wall clock is the wall clock of its instant. *)
Lemma datetime_of_micros_of_datetime t :
  valid_datetime t -> datetime_of_micros (micros_of_datetime t) = t.
Proof.
  destruct t as [y m d hh mm ss us]. unfold valid_datetime, micros_of_datetime.
  cbn [year month day hour minute second microsecond].
  intros (Hd & Hh & Hm & Hs & Hu).
  set (days := days_from_civil y m d).
  set (total := (((days * 24 + hh) * 60 + mm) * 60 + ss) * 1000000 + us).
  unfold datetime_of_micros.
  assert (E1 : total / 1000000 = ((days * 24 + hh) * 60 + mm) * 60 + ss)
    by (subst total; Z.div_mod_to_equations; lia).
  assert (E2 : total mod 1000000 = us)
    by (subst total; Z.div_mod_to_equations; lia).
  rewrite E1, E2.
  set (secs := ((days * 24 + hh) * 60 + mm) * 60 + ss).
  assert (E3 : secs / 86400 = days) by (subst secs; Z.div_mod_to_equations; lia).
  assert (E4 : secs mod 86400 = (hh * 60 + mm) * 60 + ss)
    by (subst secs; Z.div_mod_to_equations; lia).
  rewrite E3, E4. unfold days. rewrite (civil_from_days_from_civil Hd).
  f_equal; Z.div_mod_to_equations; lia.
Qed.

(** The UTC wall clock of a timestamp with zone is the valid wall clock
    that denotes its instant, and the only one. *)
Lemma to_utc_normalized v :
  valid_datetime (to_utc v)
  /\ micros_of_datetime (to_utc v) = instant v
  /\ (forall t, valid_datetime t -> micros_of_datetime t = instant v -> t = to_utc v).
Proof.
  split; [apply datetime_of_micros_valid|].
  split; [apply to_utc_instant|].
  intros t Ht E. unfold to_utc. rewrite <- E.
  symmetry. now apply datetime_of_micros_of_datetime.
Qed.

Local Close Scope Z_scope.

(** *** Rendering by value *)

(** The three timestamp columns of the router test of MSSQL, all declared
    [timestamp], and the two of the test of Postgres on daylight saving. *)
Lemma materialize_test :
  materialize [mssql_timestamp; mssql_timestamptz; mssql_null_time]
  = [ [Some (lit "2024-01-01 23:59:59.000000")];
      [Some (lit "2024-01-01 23:59:59.000000 UTC")];
      [None] ]
  /\ materialize postgres_dst
     = [ [Some (lit "2024-01-16 04:00:00.000000 UTC")];
         [Some (lit "2024-07-16 03:00:00.000000 UTC")] ].
Proof. split; vm_compute; reflexivity. Qed.


Lemma format_timestamp_shape (t : datetime) :
  List.length (format_timestamp t) = 26%nat
  /\ firstn 4 (format_timestamp t) = digits 4 (year t)
  /\ skipn 20 (format_timestamp t) = digits 6 (microsecond t)
  /\ firstn 3 (skipn 10 (format_timestamp t)) = lit " " ++ digits 2 (hour t).
Proof.
  split; [apply format_timestamp_length|].
  unfold format_timestamp.
  pose proof (digits_length 4 (year t)) as Ly.
  pose proof (digits_length 2 (month t)) as Lm.
  pose proof (digits_length 2 (day t)) as Ld.
  pose proof (digits_length 2 (hour t)) as Lh.
  pose proof (digits_length 2 (minute t)) as Ln.
  pose proof (digits_length 2 (second t)) as Ls.
  destruct (digits 4 (year t)) as [|y1 [|y2 [|y3 [|y4 [|]]]]]; try discriminate.
  destruct (digits 2 (month t)) as [|m1 [|m2 [|]]]; try discriminate.
  destruct (digits 2 (day t)) as [|d1 [|d2 [|]]]; try discriminate.
  destruct (digits 2 (hour t)) as [|h1 [|h2 [|]]]; try discriminate.
  destruct (digits 2 (minute t)) as [|n1 [|n2 [|]]]; try discriminate.
  destruct (digits 2 (second t)) as [|s1 [|s2 [|]]]; try discriminate.
  repeat split; reflexivity.
Qed.



End Executor.

(* ===================================================================== *)
(** ** Required parameters of a validation rule                           *)
(* ===================================================================== *)

Module Rules.
Import Validator PyFacts Samples.

(** The first missing name splits the declared names. *)
Lemma first_missing_Some names parameters p :
  first_missing names parameters = Some p ->
  exists before after,
    names = before ++ p :: after
    /\ Forall (fun q => PyDict.contains parameters q = true) before
    /\ PyDict.contains parameters p = false.
Proof.
  unfold first_missing.
  induction names as [|q names IH]; simpl; [discriminate|].
  destruct (PyDict.contains parameters q) eqn:C; simpl.
  - intros H. destruct (IH H) as (before & after & -> & Hb & Hp).
    exists (q :: before), after. split; [reflexivity|]. split; [|exact Hp].
    now constructor.
  - intros H. injection H as <-. exists [], names.
    split; [reflexivity|]. split; [constructor | exact C].
Qed.

Lemma first_missing_exists names parameters q :
  In q names -> PyDict.contains parameters q = false ->
  exists p, first_missing names parameters = Some p.
Proof.
  unfold first_missing. intros Hin Hq.
  destruct (find (fun p => negb (PyDict.contains parameters p)) names) eqn:F;
    [eauto|].
  pose proof (find_none _ _ F _ Hin) as N. simpl in N.
  rewrite Hq in N. discriminate.
Qed.

(** C9. When the parameters of a call lack a required name of the rule,
    [run] fails with the [ParameterError] of one name only: the first
    name, in the declared order, that is lacking. *)
Theorem run_reports_first_missing
    (Manifest ConnectionInfo : Type) (rules : PyDict.dict (Rule Manifest ConnectionInfo))
    (rule_name : str) (rule : Rule Manifest ConnectionInfo)
    (manifest : Manifest) (connection_info : ConnectionInfo)
    (parameters : PyDict.dict str) (q : str)
    (Hrule : PyDict.lookup rules rule_name = Some rule)
    (Hq : In q (required rule))
    (Hmissing : PyDict.contains parameters q = false) :
  exists before p after,
    required rule = before ++ p :: after
    /\ Forall (fun q => PyDict.contains parameters q = true) before
    /\ PyDict.contains parameters p = false
    /\ run rules rule_name manifest connection_info parameters = ParameterError p
    /\ message (run rules rule_name manifest connection_info parameters)
       = lit "Missing required parameter: `" ++ p ++ lit "`".
Proof.
  destruct (first_missing_exists _ _ _ Hq Hmissing) as [p Hp].
  destruct (first_missing_Some _ _ Hp) as (before & after & Hsplit & Hb & Hc).
  exists before, p, after.
  assert (R : run rules rule_name manifest connection_info parameters
              = ParameterError p).
  { unfold run. now rewrite Hrule, Hp. }
  rewrite R. repeat split; assumption || reflexivity.
Qed.

(** The two calls of the router test: [modelName] alone, [columnName] alone. *)
Lemma column_is_valid_one_parameter :
  message (run (Validator.rules accept) (lit "column_is_valid") tt tt only_model_name)
    = lit "Missing required parameter: `columnName`"
  /\ message (run (Validator.rules accept) (lit "column_is_valid") tt tt only_column_name)
    = lit "Missing required parameter: `modelName`"
  /\ run (Validator.rules accept) (lit "column_is_valid") tt tt []
    = ParameterError (lit "modelName").
Proof. repeat split; vm_compute; reflexivity. Qed.

(** The call of the router test with a rule that is not registered. *)
Lemma unknown_rule_message :
  message (run (Validator.rules accept) (lit "unknown_rule") tt tt only_model_name)
  = lit "The rule `unknown_rule` is not in the rules, rules: ['column_is_valid']".
Proof. vm_compute. reflexivity. Qed.

Lemma run_reports_first_missing_witness :
  exists before p after,
    [lit "modelName"; lit "columnName"] = before ++ p :: after
    /\ run (Validator.rules accept) (lit "column_is_valid") tt tt only_model_name
       = ParameterError p.
Proof.
  assert (Hrule : PyDict.lookup (Validator.rules accept) (lit "column_is_valid")
                  = Some (column_is_valid accept)) by reflexivity.
  assert (Hq : In (lit "columnName") (required (column_is_valid accept)))
    by (simpl; tauto).
  assert (Hmissing : PyDict.contains only_model_name (lit "columnName") = false)
    by reflexivity.
  destruct (run_reports_first_missing _ (lit "column_is_valid") tt tt _ _ Hrule Hq Hmissing)
    as (before & p & after & Hsplit & _ & _ & Hrun & _).
  exists before, p, after. split; [exact Hsplit | exact Hrun].
Defined.

End Rules.

(* ===================================================================== *)
(** ** More on the type table of Snowflake                                *)
(* ===================================================================== *)

Module TypeTable.
Import SnowflakeMetadata PyFacts.

Local Open Scope N_scope.

Lemma lookup_entry {V} (d : PyDict.dict V) k v :
  NoDup (PyDict.keys d) -> In (k, v) d -> PyDict.lookup d k = Some v.
Proof.
  induction d as [|[k' v'] d IH]; simpl; [tauto|].
  intros N [E|Hin].
  - injection E as -> ->. now rewrite eqb_refl.
  - inversion N as [|? ? Hk Nd]; subst.
    destruct (PyStr.eqb k' k) eqn:E; [|now apply IH].
    apply eqb_eq in E. subst k'. exfalso. apply Hk.
    change k with (fst (k, v)). now apply in_map.
Qed.

(** No name is written twice in the table. *)
Lemma switcher_keys_NoDup : NoDup (PyDict.keys switcher).
Proof.
  unfold switcher, PyDict.keys. cbn [map fst].
  repeat (constructor; [cbn [In]; intuition discriminate|]). constructor.
Qed.

(** X1. Every entry of the table is effective: a name whose lowered form is
    the key of an entry is given the type of that entry. *)
Theorem transform_entry (data_type key : str) (type : WrenEngineColumnType)
    (Hentry : In (key, type) switcher) (Hlower : lower data_type = key) :
  _transform_column_type data_type = type.
Proof.
  unfold _transform_column_type, PyDict.get. rewrite Hlower.
  now rewrite (@lookup_entry _ switcher key type switcher_keys_NoDup Hentry).
Qed.

Lemma transform_entry_witness :
  _transform_column_type (lit "Double Precision") = DOUBLE.
Proof.
  apply (@transform_entry (lit "Double Precision") (lit "double precision") DOUBLE).
  - unfold switcher. cbn [In]. do 13 right. left. reflexivity.
  - reflexivity.
Defined.

(** X2. [UNKNOWN] is the type of the names the table lacks, and of no other
    name. *)
Theorem transform_unknown_iff (data_type : str) :
  _transform_column_type data_type = UNKNOWN
  <-> ~ In (lower data_type) (PyDict.keys switcher).
Proof.
  split.
  - intros U Hin.
    destruct (@get_present _ switcher _ UNKNOWN Hin) as (v & Hv & Hget).
    unfold _transform_column_type in U. rewrite Hget in U. subst v.
    assert (K : Forall (fun e => snd e <> UNKNOWN) switcher)
      by (unfold switcher; repeat constructor; discriminate).
    rewrite Forall_forall in K. exact (K _ Hv eq_refl).
  - intros H. unfold _transform_column_type. now apply get_absent.
Qed.

(** X3. The type given to a name is [UNKNOWN] or one of the seventeen types
    of the table; [BYTEA] is not among them, so no name is given it. *)
Theorem transform_range (data_type : str) :
  In (_transform_column_type data_type)
     [ NUMERIC; INTEGER; BIGINT; SMALLINT; TINYINT; FLOAT4; FLOAT8; DOUBLE; REAL;
       VARCHAR; CHAR; STRING; TEXT; BOOLEAN; DATE; TIMESTAMP; TIMESTAMPTZ; UNKNOWN ].
Proof.
  unfold _transform_column_type.
  destruct (in_dec str_eq_dec (lower data_type) (PyDict.keys switcher)) as [Hin|Hout].
  - destruct (@get_present _ switcher _ UNKNOWN Hin) as (v & Hv & ->).
    assert (K : Forall (fun e => snd e <> BYTEA) switcher)
      by (unfold switcher; repeat constructor; discriminate).
    rewrite Forall_forall in K. specialize (K _ Hv). simpl in K.
    destruct v; cbn [In]; tauto.
  - rewrite get_absent by exact Hout. cbn [In]. tauto.
Qed.

Lemma lower_cp_nonletter c :
  c < 0x41 -> lower_cp c = [c].
Proof.
  intros H. rewrite lower_cp_ascii by lia. unfold between.
  destruct (N.leb_spec 0x41 c); [lia | reflexivity].
Qed.

Lemma lower_keeps c s : c < 0x41 -> In c s -> In c (lower s).
Proof.
  intros Hc Hin. unfold lower. apply in_flat_map. exists c.
  split; [exact Hin|]. rewrite lower_cp_nonletter by exact Hc. now left.
Qed.

(** X4. A name with an opening parenthesis in it, such as a type written
    with its precision, is given [UNKNOWN]: the name is looked up whole. *)
Theorem transform_parameterized (data_type : str) (H : In 0x28 data_type) :
  _transform_column_type data_type = UNKNOWN.
Proof.
  unfold _transform_column_type. apply get_absent. intros Hin.
  assert (K : Forall (fun k => ~ In 0x28 k) (PyDict.keys switcher)).
  { unfold switcher, PyDict.keys. cbn [map fst].
    repeat constructor; vm_compute; intuition discriminate. }
  rewrite Forall_forall in K. apply (K _ Hin).
  apply lower_keeps; [lia | exact H].
Qed.

Lemma transform_parameterized_witness :
  In 0x28 (lit "NUMBER(38,0)") /\ _transform_column_type (lit "NUMBER(38,0)") = UNKNOWN.
Proof.
  assert (H : In 0x28 (lit "NUMBER(38,0)")).
  { vm_compute. do 6 right. left. reflexivity. }
  split; [exact H | exact (@transform_parameterized (lit "NUMBER(38,0)") H)].
Defined.

(** X5. The name is not trimmed: with a blank before or after it, any name
    is given [UNKNOWN]. *)
Theorem transform_untrimmed (data_type : str) :
  _transform_column_type (0x20 :: data_type) = UNKNOWN
  /\ _transform_column_type (data_type ++ [0x20]) = UNKNOWN.
Proof.
  unfold _transform_column_type. split; apply get_absent; intros Hin.
  - assert (K : Forall (fun k => hd_error k <> Some 0x20) (PyDict.keys switcher)).
    { unfold switcher, PyDict.keys. cbn [map fst].
      repeat constructor; vm_compute; discriminate. }
    rewrite Forall_forall in K. apply (K _ Hin). reflexivity.
  - assert (K : Forall (fun k => last k 0 <> 0x20) (PyDict.keys switcher)).
    { unfold switcher, PyDict.keys. cbn [map fst].
      repeat constructor; vm_compute; discriminate. }
    rewrite Forall_forall in K. apply (K _ Hin).
    rewrite lower_app. change (lower [0x20]) with [0x20]. apply last_last.
Qed.

End TypeTable.

(* ===================================================================== *)
(** ** Reading names back                                                 *)
(* ===================================================================== *)

Module Naming.
Import SnowflakeMetadata PyFacts.

(** Two texts cut at the first occurrence of a separator agree part by
    part. *)
Lemma cut_at_separator {A} (c : A) (a1 a2 b1 b2 : list A) :
  ~ In c a1 -> ~ In c a2 -> a1 ++ c :: b1 = a2 ++ c :: b2 ->
  a1 = a2 /\ b1 = b2.
Proof.
  revert a2. induction a1 as [|x a1 IH]; intros [|y a2] H1 H2 E; simpl in *.
  - injection E as ->. split; reflexivity.
  - injection E as -> _. tauto.
  - injection E as -> _. tauto.
  - injection E as -> E.
    destruct (IH a2) as [-> ->]; [tauto | tauto | exact E | split; reflexivity].
Qed.

(** X6. Among schemas written without a dot, the compact name tells the
    schema and the table: two pairs with the same compact name are the same
    pair.  (With a dot in the schema this fails: [A.B] with [C], and [A]
    with [B.C], are both named [A.B.C].) *)
Theorem compact_table_name_injective (schema1 table1 schema2 table2 : str)
    (H1 : ~ In 0x2E%N schema1) (H2 : ~ In 0x2E%N schema2)
    (E : _format_compact_table_name schema1 table1
         = _format_compact_table_name schema2 table2) :
  schema1 = schema2 /\ table1 = table2.
Proof.
  unfold _format_compact_table_name in E.
  change (lit ".") with [0x2E%N] in E. simpl in E.
  exact (@cut_at_separator _ _ _ _ _ _ H1 H2 E).
Qed.

Lemma compact_table_name_injective_witness :
  ~ In 0x2E%N (lit "PUBLIC")
  /\ _format_compact_table_name (lit "PUBLIC") (lit "ORDERS") = lit "PUBLIC.ORDERS"
  /\ lit "PUBLIC" = lit "PUBLIC" /\ lit "ORDERS" = lit "ORDERS".
Proof.
  assert (H : ~ In 0x2E%N (lit "PUBLIC")) by (vm_compute; intuition discriminate).
  split; [exact H|]. split; [reflexivity|].
  exact (@compact_table_name_injective (lit "PUBLIC") (lit "ORDERS")
           (lit "PUBLIC") (lit "ORDERS") H H eq_refl).
Defined.

Lemma compact_table_name_ambiguous :
  _format_compact_table_name (lit "A.B") (lit "C")
  = _format_compact_table_name (lit "A") (lit "B.C").
Proof. reflexivity. Qed.

(** X7. When the referenced table, the referenced column and the
    referencing table are written without an underscore, the constraint
    name tells the four names it was made of. *)
Theorem constraint_name_injective
    (t1 c1 r1 rc1 t2 c2 r2 rc2 : str)
    (Ht1 : ~ In 0x5F%N t1) (Hc1 : ~ In 0x5F%N c1) (Hr1 : ~ In 0x5F%N r1)
    (Ht2 : ~ In 0x5F%N t2) (Hc2 : ~ In 0x5F%N c2) (Hr2 : ~ In 0x5F%N r2)
    (E : _format_constraint_name t1 c1 r1 rc1 = _format_constraint_name t2 c2 r2 rc2) :
  t1 = t2 /\ c1 = c2 /\ r1 = r2 /\ rc1 = rc2.
Proof.
  unfold _format_constraint_name in E.
  change (lit "_") with [0x5F%N] in E. simpl in E.
  destruct (@cut_at_separator _ _ _ _ _ _ Ht1 Ht2 E) as [-> E1].
  destruct (@cut_at_separator _ _ _ _ _ _ Hc1 Hc2 E1) as [-> E2].
  destruct (@cut_at_separator _ _ _ _ _ _ Hr1 Hr2 E2) as [-> ->].
  repeat split.
Qed.

Lemma constraint_name_injective_witness :
  _format_constraint_name (lit "CUSTOMER") (lit "ID") (lit "ORDERS") (lit "CUST_ID")
  = lit "CUSTOMER_ID_ORDERS_CUST_ID"
  /\ lit "CUSTOMER" = lit "CUSTOMER" /\ lit "ID" = lit "ID"
  /\ lit "ORDERS" = lit "ORDERS" /\ lit "CUST_ID" = lit "CUST_ID".
Proof.
  assert (Ht : ~ In 0x5F%N (lit "CUSTOMER")) by (vm_compute; intuition discriminate).
  assert (Hc : ~ In 0x5F%N (lit "ID")) by (vm_compute; intuition discriminate).
  assert (Hr : ~ In 0x5F%N (lit "ORDERS")) by (vm_compute; intuition discriminate).
  split; [reflexivity|].
  exact (@constraint_name_injective
           (lit "CUSTOMER") (lit "ID") (lit "ORDERS") (lit "CUST_ID")
           (lit "CUSTOMER") (lit "ID") (lit "ORDERS") (lit "CUST_ID")
           Ht Hc Hr Ht Hc Hr eq_refl).
Defined.

End Naming.

(* ===================================================================== *)
(** ** More on [get_table_list]                                           *)
(* ===================================================================== *)

Module TableListMore.
Import SnowflakeMetadata PyFacts TableList Samples.

(** *** One schema *)

Lemma first_sightings_map (f : str -> str) (names : list str) :
  (forall a b, f a = f b -> a = b) ->
  first_sightings (map f names) = map f (first_sightings names).
Proof.
  intros Hf. induction names as [|n names IH]; simpl; [reflexivity|].
  f_equal. rewrite IH. clear IH.
  induction (first_sightings names) as [|x l IHl]; simpl; [reflexivity|].
  assert (E : PyStr.eqb (f x) (f n) = PyStr.eqb x n).
  { destruct (PyStr.eqb x n) eqn:X.
    - apply eqb_eq in X. subst. apply eqb_refl.
    - apply eqb_neq in X. apply eqb_neq. intros F. apply X. now apply Hf. }
  rewrite E. destruct (PyStr.eqb x n); simpl; now rewrite IHl.
Qed.

(** X8. When all rows are of one schema, as the rows of the column query
    are, the tables returned are those of the distinct [TABLE_NAME]s, in
    the order of their first rows, each named [schema.TABLE_NAME]. *)
Theorem table_names_of_one_schema (schema : str) (response : list ColumnsRow)
    (H : Forall (fun row => TABLE_SCHEMA row = schema) response) :
  map Table.name (get_table_list response)
  = map (_format_compact_table_name schema)
        (first_sightings (map TABLE_NAME response)).
Proof.
  rewrite get_table_list_names.
  rewrite <- first_sightings_map.
  - f_equal. rewrite map_map. apply map_ext_in. intros row Hin.
    rewrite Forall_forall in H. unfold compact_name. now rewrite (H row Hin).
  - intros a b E. unfold _format_compact_table_name in E.
    apply app_inv_head in E. now apply app_inv_head in E.
Qed.

Lemma table_names_of_one_schema_witness :
  Forall (fun row => TABLE_SCHEMA row = lit "PUBLIC") Samples.response
  /\ map Table.name (get_table_list Samples.response)
     = [lit "PUBLIC.ORDERS"; lit "PUBLIC.CUSTOMER"].
Proof.
  assert (H : Forall (fun row => TABLE_SCHEMA row = lit "PUBLIC") Samples.response)
    by (repeat constructor).
  split; [exact H|].
  rewrite (@table_names_of_one_schema (lit "PUBLIC") Samples.response H).
  reflexivity.
Defined.

(** *** No row is lost *)

Lemma all_columns_app d1 d2 : all_columns (d1 ++ d2) = all_columns d1 ++ all_columns d2.
Proof. unfold all_columns, PyDict.values. now rewrite map_app, flat_map_app. Qed.

Lemma keys_alter {V} (f : V -> V) (d : PyDict.dict V) k :
  PyDict.keys (PyDict.alter f d k) = PyDict.keys d.
Proof.
  unfold PyDict.keys, PyDict.alter. rewrite map_map. apply map_ext.
  intros e. now destruct (PyStr.eqb (fst e) k).
Qed.

(** Appending to the table stored under a key of the dictionary adds the
    column once. *)
Lemma all_columns_alter d n column :
  NoDup (PyDict.keys d) -> PyDict.contains d n = true ->
  Permutation (all_columns (PyDict.alter (append_column column) d n))
              (all_columns d ++ [column]).
Proof.
  induction d as [|[k t] d IH]; intros N C.
  - discriminate.
  - inversion N as [|? ? Hk Nd]; subst.
    change (PyDict.alter (append_column column) ((k, t) :: d) n)
      with ((if PyStr.eqb k n then (k, append_column column t) else (k, t))
              :: PyDict.alter (append_column column) d n).
    destruct (PyStr.eqb k n) eqn:E.
    + apply eqb_eq in E. subst k.
      rewrite alter_absent by (now apply contains_false).
      unfold all_columns. simpl. rewrite <- !app_assoc.
      apply Permutation_app_head. apply Permutation_app_comm.
    + assert (C' : PyDict.contains d n = true).
      { unfold PyDict.contains in *. simpl in C. now rewrite E in C. }
      unfold all_columns in *. simpl. rewrite <- app_assoc.
      apply Permutation_app_head. now apply IH.
Qed.

Lemma table_list_step_columns d row :
  NoDup (PyDict.keys d) ->
  NoDup (PyDict.keys (table_list_step d row))
  /\ Permutation (all_columns (table_list_step d row))
                 (all_columns d ++ [column_of_row row]).
Proof.
  intros N. destruct (PyDict.contains d (compact_name row)) eqn:C.
  - rewrite table_list_step_open by exact C. rewrite keys_alter.
    split; [exact N | now apply all_columns_alter].
  - rewrite table_list_step_new by exact C. split.
    + unfold PyDict.keys. rewrite map_app. simpl.
      apply NoDup_app; [exact N | repeat constructor; simpl; tauto |].
      intros k Hk [<-|[]]. apply contains_false in C. contradiction.
    + rewrite all_columns_app. unfold all_columns at 2. simpl.
      apply Permutation_refl.
Qed.

Lemma fold_columns rows : forall d,
  NoDup (PyDict.keys d) ->
  Permutation (all_columns (fold_left table_list_step rows d))
              (all_columns d ++ map column_of_row rows).
Proof.
  induction rows as [|row rows IH]; intros d N; simpl.
  - rewrite app_nil_r. apply Permutation_refl.
  - destruct (@table_list_step_columns d row N) as [N' P].
    eapply Permutation_trans; [apply (IH _ N')|].
    change (column_of_row row :: map column_of_row rows)
      with ([column_of_row row] ++ map column_of_row rows).
    rewrite app_assoc. now apply Permutation_app_tail.
Qed.

(** X9. The columns of the tables returned are the columns of the rows:
    each row gives one column to one table, so there are as many columns
    in all as rows in the response. *)
Theorem columns_are_the_rows (response : list ColumnsRow) :
  Permutation (flat_map Table.columns (get_table_list response))
              (map column_of_row response)
  /\ List.length (flat_map Table.columns (get_table_list response))
     = List.length response.
Proof.
  assert (P : Permutation (flat_map Table.columns (get_table_list response))
                          (map column_of_row response)).
  { unfold get_table_list. apply (@fold_columns response []). constructor. }
  split; [exact P|].
  rewrite (Permutation_length P). apply length_map.
Qed.

(** X10. A table is returned only with columns, and no table is returned
    only for an empty response. *)
Theorem tables_have_columns (response : list ColumnsRow) :
  Forall (fun t => Table.columns t <> []) (get_table_list response)
  /\ (get_table_list response = [] <-> response = []).
Proof.
  split.
  - eapply Forall_impl; [|apply get_table_list_tables].
    intros t (first & more & _ & _ & _ & _ & Hc). rewrite Hc. discriminate.
  - split; [|intros ->; reflexivity].
    intros E. pose proof (get_table_list_names response) as Hn.
    rewrite E in Hn. destruct response; [reflexivity | discriminate].
Qed.

(** *** A table depends on its own rows only *)

Lemma filter_true_all {A} (l : list A) (p : A -> bool) :
  (forall x, In x l -> p x = true) -> filter p l = l.
Proof.
  induction l as [|x l IH]; intros H; simpl; [reflexivity|].
  rewrite (H x) by now left. f_equal. apply IH. intros y Hy. apply H. now right.
Qed.

Lemma filter_twice {A} (p : A -> bool) l : filter p (filter p l) = filter p l.
Proof. apply filter_filter. trivial. Qed.

Lemma filter_disjoint {A} (p q : A -> bool) l :
  (forall x, p x = true -> q x = false) -> filter p (filter q l) = [].
Proof.
  intros H. induction l as [|x l IH]; simpl; [reflexivity|].
  destruct (q x) eqn:Q; [|exact IH]. simpl.
  destruct (p x) eqn:P; [|exact IH]. apply H in P. congruence.
Qed.

Lemma rows_of_twice n rows : rows_of n (rows_of n rows) = rows_of n rows.
Proof. unfold rows_of. apply filter_twice. Qed.

Lemma grouped_rows_of n rows :
  grouped (rows_of n rows)
  = filter (fun e => PyStr.eqb (fst e) n) (grouped rows).
Proof.
  induction rows as [|row rest IH]; [reflexivity|].
  destruct (PyStr.eqb (compact_name row) n) eqn:E.
  - apply eqb_eq in E. subst n.
    rewrite rows_of_cons_same.
    change (grouped (row :: rows_of (compact_name row) rest))
      with ((compact_name row,
             add_columns (table_shell (compact_name row) row)
               (row :: rows_of (compact_name row) (rows_of (compact_name row) rest)))
              :: filter (fun e => negb (PyStr.eqb (fst e) (compact_name row)))
                   (grouped (rows_of (compact_name row) rest))).
    rewrite rows_of_twice.
    rewrite IH. simpl. rewrite eqb_refl.
    rewrite !filter_disjoint; [reflexivity | |].
    + intros e H. now rewrite H.
    + intros e H. apply negb_true_iff in H. exact H.
  - assert (E' : PyStr.eqb n (compact_name row) = false) by now rewrite eqb_sym.
    rewrite rows_of_cons_other by exact E'. rewrite IH. simpl.
    rewrite E. rewrite filter_filter; [reflexivity|].
    intros e H. apply eqb_eq in H. rewrite H, E'. reflexivity.
Qed.

(** X11. The table of a name is made of the rows of that name alone:
    keeping only these rows of the response gives the same table, and no
    other. *)
Theorem table_of_own_rows (name : str) (response : list ColumnsRow) :
  get_table_list (rows_of name response)
  = filter (fun t => PyStr.eqb (Table.name t) name) (get_table_list response).
Proof.
  rewrite !get_table_list_grouped, grouped_rows_of.
  pose proof (grouped_entries response) as F.
  unfold PyDict.values.
  induction F as [|e g He Hg IH]; simpl; [reflexivity|].
  destruct (entry_of_table He) as (first & more & _ & Hn & _).
  rewrite Hn. destruct (PyStr.eqb (fst e) name); simpl; now rewrite IH.
Qed.

(** *** Name and properties *)

(** X17. The name of a table returned is the compact name of the schema and
    the table of its properties, and its properties are those of a row of
    the response. *)
Theorem table_name_of_properties (response : list ColumnsRow) :
  Forall (fun t =>
    Table.name t
    = _format_compact_table_name (TableProperties.schema (Table.properties t))
                                 (TableProperties.table (Table.properties t))
    /\ exists row, In row response
         /\ Table.properties t
            = TableProperties.make (TABLE_SCHEMA row) (TABLE_CATALOG row)
                                   (TABLE_NAME row))
    (get_table_list response).
Proof.
  eapply Forall_impl; [|apply get_table_list_tables].
  intros t (first & more & Hr & _ & _ & Hp & _).
  assert (Hin : In first (rows_of (Table.name t) response))
    by (rewrite Hr; now left).
  unfold rows_of in Hin. apply filter_In in Hin. destruct Hin as [Hin Hn].
  apply eqb_eq in Hn. split.
  - rewrite Hp. simpl. now rewrite <- Hn.
  - exists first. split; [exact Hin | exact Hp].
Qed.

(** *** Responses put together *)

Lemma rows_of_none name rows :
  (forall row, In row rows -> compact_name row <> name) -> rows_of name rows = [].
Proof.
  intros H. unfold rows_of. induction rows as [|row rows IH]; simpl; [reflexivity|].
  destruct (PyStr.eqb (compact_name row) name) eqn:E.
  - apply eqb_eq in E. exfalso. apply (H row); [now left | exact E].
  - apply IH. intros r Hr. apply H. now right.
Qed.

Lemma grouped_key_row rows e :
  In e (grouped rows) -> exists row, In row rows /\ compact_name row = fst e.
Proof.
  intros He.
  assert (Hk : In (fst e) (PyDict.keys (grouped rows))) by now apply in_map.
  rewrite grouped_keys in Hk. apply (proj1 (first_sightings_In _ _)) in Hk.
  apply in_map_iff in Hk. destruct Hk as (row & Hn & Hin). eauto.
Qed.

(** X18. For two responses with no table in common, the table list of the
    two put together is the table list of the first followed by the table
    list of the second. *)
Theorem get_table_list_app (response1 response2 : list ColumnsRow)
    (H : forall row1 row2, In row1 response1 -> In row2 response2 ->
                           compact_name row1 <> compact_name row2) :
  get_table_list (response1 ++ response2)
  = get_table_list response1 ++ get_table_list response2.
Proof.
  unfold get_table_list at 1.
  rewrite fold_left_app, (fold_grouped response1 []). simpl. rewrite unopened_nil.
  rewrite fold_grouped, !get_table_list_grouped.
  unfold PyDict.values. rewrite map_app. f_equal.
  - f_equal. rewrite <- (map_id (grouped response1)) at 2.
    apply map_ext_in. intros [k t] He. unfold extended. cbn [fst snd].
    destruct (grouped_key_row _ _ He) as (row1 & Hin1 & Hk). simpl in Hk.
    rewrite rows_of_none; [reflexivity|].
    intros row2 Hin2 E. apply (H row1 row2 Hin1 Hin2). congruence.
  - f_equal. unfold unopened.
    rewrite <- (filter_true_all (grouped response2)) at 2.
    + reflexivity.
    + intros e He. apply negb_true_iff. apply contains_false.
      rewrite grouped_keys. intros Hk. apply (proj1 (first_sightings_In _ _)) in Hk.
      apply in_map_iff in Hk. destruct Hk as (row1 & Hn & Hin1).
      destruct (grouped_key_row _ _ He) as (row2 & Hin2 & Hk2).
      apply (H row1 row2 Hin1 Hin2). congruence.
Qed.

Lemma get_table_list_app_witness :
  map Table.name (get_table_list (Samples.response ++ other_response))
  = [lit "PUBLIC.ORDERS"; lit "PUBLIC.CUSTOMER"; lit "SALES.ORDERS"].
Proof.
  rewrite (@get_table_list_app Samples.response other_response).
  - reflexivity.
  - intros row1 row2 H1 H2.
    simpl in H1, H2.
    destruct H2 as [<- | []].
    destruct H1 as [<- | [<- | [<- | []]]]; vm_compute; discriminate.
Defined.

End TableListMore.

(* ===================================================================== *)
(** ** The not-null mark                                                  *)
(* ===================================================================== *)

Module NotNull.
Import SnowflakeMetadata PyFacts.

Local Open Scope N_scope.

(** Case analysis on the tests of [lower_cp], from the first one on, keeping
    what each test says. *)
Ltac lower_cp_cases c l :=
  remember (lower_cp c) as l eqn:L; revert L; unfold lower_cp;
  repeat match goal with
         | |- _ = (if ?b then _ else _) -> _ =>
             let E := fresh "E" in destruct b eqn:E
         end;
  intros ->.

(** A code point is lowered to one code point, or to [i] and a dot above. *)
Lemma lower_cp_shape c :
  (exists x, lower_cp c = [x]) \/ lower_cp c = [0x69; 0x307].
Proof. lower_cp_cases c l; eauto. Qed.

Lemma lower_cp_to_ascii c x :
  lower_cp c = [x] -> x < 128 -> x <> 0x6B ->
  c = x \/ (0x41 <= c <= 0x5A /\ x = c + 32).
Proof.
  lower_cp_cases c l; intros X; try discriminate; injection X as <-;
    intros Hx Hk; unfold between in *;
    repeat match goal with
           | H : _ && _ = true |- _ => apply andb_prop in H; destruct H
           | H : (_ <=? _) = true |- _ => apply N.leb_le in H
           | H : (_ =? _) = true |- _ => apply N.eqb_eq in H
           end; lia.
Qed.

Lemma lower_nil s : lower s = [] -> s = [].
Proof.
  destruct s as [|c s]; [reflexivity|]. unfold lower. simpl.
  destruct (lower_cp_shape c) as [[x ->] | ->]; discriminate.
Qed.

(** The strings that are lowered to [no]. *)
Lemma lower_is_no s :
  lower s = lit "no" <-> In s [lit "NO"; lit "No"; lit "nO"; lit "no"].
Proof.
  split.
  - change (lit "no") with [0x6E; 0x6F].
    destruct s as [|c1 s]; [discriminate|]. unfold lower. simpl.
    destruct (lower_cp_shape c1) as [[x1 E1] | E1]; rewrite E1;
      [|discriminate]. simpl. intros H. injection H as -> H.
    destruct s as [|c2 s]; [discriminate|]. simpl in H.
    destruct (lower_cp_shape c2) as [[x2 E2] | E2]; rewrite E2 in H;
      [|discriminate]. simpl in H. injection H as -> H.
    apply lower_nil in H. subst s.
    apply lower_cp_to_ascii in E1; [|lia|lia].
    apply lower_cp_to_ascii in E2; [|lia|lia].
    assert (C1 : c1 = 0x6E \/ c1 = 0x4E) by lia.
    assert (C2 : c2 = 0x6F \/ c2 = 0x4F) by lia.
    destruct C1 as [-> | ->], C2 as [-> | ->]; vm_compute; tauto.
  - intros [<- | [<- | [<- | [<- | []]]]]; reflexivity.
Qed.

(** X12. A column is marked not null for exactly four spellings of the
    [IS_NULLABLE] cell: [NO], [No], [nO] and [no]; the cell is not trimmed,
    and any other text, [YES] or not, leaves the column nullable. *)
Theorem not_null_spellings (row : ColumnsRow) :
  Column.notNull (column_of_row row) = true
  <-> In (IS_NULLABLE row) [lit "NO"; lit "No"; lit "nO"; lit "no"].
Proof.
  rewrite <- lower_is_no. simpl. apply eqb_eq.
Qed.

End NotNull.

(* ===================================================================== *)
(** ** More on [get_constraints]                                          *)
(* ===================================================================== *)

Module ConstraintsMore.
Import SnowflakeMetadata PyFacts TableList Constraints Samples.

(** *** A record without one of the fields *)

Lemma lookup_contains {V} (d : PyDict.dict V) k :
  PyDict.lookup d k = None -> PyDict.contains d k = false.
Proof. unfold PyDict.contains. now intros ->. Qed.

Lemma constraint_of_row_raises row :
  has_key_columns row = false ->
  exists key,
    In key key_columns /\ PyDict.contains row key = false
    /\ constraint_of_row row = Raise (KeyError key).
Proof.
  intros H. unfold constraint_of_row, getitem.
  destruct (PyDict.lookup row (lit "pk_table_name")) as [pkt|] eqn:E1;
    [|exists (lit "pk_table_name"); split; [simpl; tauto|];
      split; [now apply lookup_contains | reflexivity]].
  destruct (PyDict.lookup row (lit "pk_column_name")) as [pkc|] eqn:E2;
    [|exists (lit "pk_column_name"); split; [simpl; tauto|];
      split; [now apply lookup_contains | reflexivity]].
  destruct (PyDict.lookup row (lit "fk_table_name")) as [fkt|] eqn:E3;
    [|exists (lit "fk_table_name"); split; [simpl; tauto|];
      split; [now apply lookup_contains | reflexivity]].
  destruct (PyDict.lookup row (lit "fk_column_name")) as [fkc|] eqn:E4;
    [|exists (lit "fk_column_name"); split; [simpl; tauto|];
      split; [now apply lookup_contains | reflexivity]].
  destruct (PyDict.lookup row (lit "pk_schema_name")) as [pks|] eqn:E5;
    [|exists (lit "pk_schema_name"); split; [simpl; tauto|];
      split; [now apply lookup_contains | reflexivity]].
  destruct (PyDict.lookup row (lit "fk_schema_name")) as [fks|] eqn:E6;
    [|exists (lit "fk_schema_name"); split; [simpl; tauto|];
      split; [now apply lookup_contains | reflexivity]].
  exfalso. unfold has_key_columns, key_columns, PyDict.contains in H.
  cbn [forallb] in H. rewrite E1, E2, E3, E4, E5, E6 in H. discriminate.
Qed.

Lemma constraints_loop_raises res : forall constraints,
  Exists (fun row => has_key_columns row = false) res ->
  exists key,
    In key key_columns /\ constraints_loop res constraints = Raise (KeyError key).
Proof.
  induction res as [|row rest IH]; intros constraints X.
  - inversion X.
  - simpl. destruct (has_key_columns row) eqn:K.
    + destruct (constraint_of_row_total _ K) as [c ->]. cbn [Exc.bind].
      apply IH. inversion X as [? ? Hbad | ? ? Hrest]; subst; [congruence | exact Hrest].
    + destruct (constraint_of_row_raises _ K) as (key & Hin & _ & ->).
      exists key. split; [exact Hin | reflexivity].
Qed.

(** X13. When one of the records lacks one of the six fields read,
    [get_constraints] raises a [KeyError] for one of these fields: the
    constraints made of the other records are not returned. *)
Theorem get_constraints_missing_field
    (memtable_records : list KeysRow -> exc (list KeysRow))
    (description : list (str * str)) (fetched : list (list str)) (res : list KeysRow)
    (Hres : imported_keys memtable_records description fetched = Ok res)
    (Hbad : Exists (fun row => has_key_columns row = false) res) :
  exists key,
    In key key_columns
    /\ get_constraints memtable_records description fetched = Raise (KeyError key).
Proof.
  unfold get_constraints. rewrite Hres. cbn [Exc.bind].
  now apply constraints_loop_raises.
Qed.

Lemma get_constraints_missing_field_witness :
  exists key,
    In key key_columns
    /\ get_constraints plain_records (firstn 5 keys_description) keys_fetched
       = Raise (KeyError key).
Proof.
  assert (Hres : imported_keys plain_records (firstn 5 keys_description) keys_fetched
                 = Ok [PyDict.of_pairs (combine (map fst (firstn 5 keys_description))
                                                (hd [] keys_fetched))])
    by reflexivity.
  refine (get_constraints_missing_field _ _ _ Hres _).
  left. reflexivity.
Defined.

(** *** The records of the cursor *)

Lemma contains_set {V} (d : PyDict.dict V) k v k' :
  PyDict.contains (PyDict.set d k v) k' = PyDict.contains d k' || PyStr.eqb k k'.
Proof.
  unfold PyDict.contains.
  induction d as [|[k0 v0] d IH]; simpl.
  - now destruct (PyStr.eqb k k').
  - destruct (PyStr.eqb k0 k) eqn:E; simpl.
    + apply eqb_eq in E. subst k0.
      destruct (PyStr.eqb k k') eqn:E'; simpl; [reflexivity|].
      now rewrite orb_false_r.
    + destruct (PyStr.eqb k0 k'); [reflexivity | exact IH].
Qed.

Lemma contains_fold_set {V} (pairs : list (str * V)) : forall d k,
  PyDict.contains (fold_left (fun d e => PyDict.set d (fst e) (snd e)) pairs d) k
  = PyDict.contains d k || existsb (fun e => PyStr.eqb (fst e) k) pairs.
Proof.
  induction pairs as [|e pairs IH]; intros d k; simpl.
  - now rewrite orb_false_r.
  - rewrite IH, contains_set. now rewrite orb_assoc.
Qed.

(** A field of the header with a cell under it is a key of the record. *)
Lemma record_has_field (fields : list str) (row : list str) k :
  In k fields -> (List.length fields <= List.length row)%nat ->
  PyDict.contains (PyDict.of_pairs (combine fields row)) k = true.
Proof.
  intros Hin Hlen. unfold PyDict.of_pairs. rewrite contains_fold_set. simpl.
  apply existsb_exists.
  revert row Hlen. induction fields as [|f fields IH]; intros row Hlen; [contradiction|].
  destruct row as [|cell row]; [simpl in Hlen; lia|].
  destruct Hin as [-> | Hin].
  - exists (k, cell). split; [now left | apply eqb_refl].
  - destruct (IH Hin row) as (e & He & Hk); [simpl in Hlen; lia|].
    exists e. split; [now right | exact Hk].
Qed.

Lemma set_new_key {V} (d : PyDict.dict V) k v :
  ~ In k (PyDict.keys d) -> PyDict.set d k v = d ++ [(k, v)].
Proof. intros H. apply set_absent. now apply contains_false. Qed.

Lemma fold_set_distinct {V} (pairs : list (str * V)) : forall d,
  NoDup (PyDict.keys d ++ map fst pairs) ->
  fold_left (fun d e => PyDict.set d (fst e) (snd e)) pairs d = d ++ pairs.
Proof.
  induction pairs as [|[k v] pairs IH]; intros d N; simpl.
  - now rewrite app_nil_r.
  - simpl in N. rewrite set_new_key.
    + rewrite IH.
      * now rewrite <- app_assoc.
      * unfold PyDict.keys in *. rewrite map_app, <- app_assoc. exact N.
    + apply NoDup_remove_2 in N. intros Hin. apply N. apply in_or_app. now left.
Qed.

Lemma combine_keys_NoDup (fields row : list str) :
  NoDup fields -> NoDup (map fst (combine fields row)).
Proof.
  intros N. revert row. induction N as [|f fields Hf N IH]; intros row; simpl.
  - constructor.
  - destruct row as [|cell row]; simpl; constructor; [|apply IH].
    intros Hin. apply Hf. apply in_map_iff in Hin.
    destruct Hin as ([f' c'] & <- & Hin). now apply in_combine_l in Hin.
Qed.

(** X14. With the field names of the header all different, a record maps
    each field name to the cell under it, in the order of the header. *)
Theorem record_of_distinct_fields (fields row : list str) (H : NoDup fields) :
  PyDict.of_pairs (combine fields row) = combine fields row
  /\ (forall field cell, In (field, cell) (combine fields row) ->
        PyDict.lookup (PyDict.of_pairs (combine fields row)) field = Some cell).
Proof.
  assert (E : PyDict.of_pairs (combine fields row) = combine fields row).
  { unfold PyDict.of_pairs. rewrite fold_set_distinct; [reflexivity|].
    simpl. now apply combine_keys_NoDup. }
  split; [exact E|]. intros field cell Hin. rewrite E.
  apply TypeTable.lookup_entry; [|exact Hin].
  now apply combine_keys_NoDup.
Qed.

Lemma record_of_distinct_fields_witness :
  NoDup (map fst keys_description)
  /\ PyDict.lookup (PyDict.of_pairs (combine (map fst keys_description)
                                             (hd [] keys_fetched)))
                   (lit "fk_table_name") = Some (lit "ORDERS").
Proof.
  assert (H : NoDup (map fst keys_description)).
  { vm_compute. repeat (constructor; [cbn [In]; intuition discriminate|]). constructor. }
  split; [exact H|].
  apply (proj2 (@record_of_distinct_fields (map fst keys_description)
                  (hd [] keys_fetched) H)).
  vm_compute. do 4 right. left. reflexivity.
Defined.

(** X15. When the header of the cursor has the six fields, every row is as
    wide as the header and the data-frame round trip hands the records
    back, [get_constraints] returns one constraint for each row fetched. *)
Theorem get_constraints_of_cursor
    (memtable_records : list KeysRow -> exc (list KeysRow))
    (description : list (str * str)) (fetched : list (list str))
    (Hfields : incl key_columns (map fst description))
    (Hwidth : Forall (fun row => List.length row = List.length description) fetched)
    (Hback : forall result, memtable_records result = Ok result) :
  exists constraints,
    get_constraints memtable_records description fetched = Ok constraints
    /\ List.length constraints = List.length fetched.
Proof.
  set (records := map (fun row => PyDict.of_pairs (combine (map fst description) row))
                      fetched).
  assert (Hres : imported_keys memtable_records description fetched = Ok records).
  { unfold imported_keys. fold records. rewrite Hback.
    destruct records eqn:R; [|reflexivity]. reflexivity. }
  assert (Hkeys : Forall (fun row => has_key_columns row = true) records).
  { unfold records. rewrite Forall_map. eapply Forall_impl; [|exact Hwidth].
    intros row Hrow. unfold has_key_columns. apply forallb_forall.
    intros k Hk. apply record_has_field; [now apply Hfields|].
    rewrite length_map. cbv beta in Hrow. lia. }
  destruct (get_constraints_ok _ _ _ Hres Hkeys) as (constraints & Hget & Hmade).
  exists constraints. split; [exact Hget|].
  apply Forall2_length in Hmade. rewrite <- Hmade. unfold records.
  apply length_map.
Qed.

Lemma get_constraints_of_cursor_witness :
  exists constraints,
    get_constraints plain_records keys_description keys_fetched = Ok constraints
    /\ List.length constraints = 1%nat.
Proof.
  refine (@get_constraints_of_cursor plain_records keys_description keys_fetched _ _ _).
  - intros k Hk. vm_compute in Hk. vm_compute. tauto.
  - repeat constructor.
  - reflexivity.
Defined.

(** *** The fields that are not read *)

(** X19. A constraint depends on the six fields read and on nothing else
    of the record: the name the backend gave to the key, the update and
    delete rules and the other cells do not change it. *)
Theorem constraint_of_six_fields (record1 record2 : KeysRow)
    (H : Forall (fun key => PyDict.lookup record1 key = PyDict.lookup record2 key)
                key_columns) :
  constraint_of_row record1 = constraint_of_row record2.
Proof.
  unfold key_columns in H.
  repeat match goal with
         | F : Forall _ (_ :: _) |- _ => inversion F as [|? ? ? ?]; subst; clear F
         end.
  unfold constraint_of_row, getitem.
  repeat match goal with
         | E : PyDict.lookup record1 ?k = _ |- _ => rewrite E; clear E
         end.
  reflexivity.
Qed.

Lemma constraint_of_six_fields_witness :
  constraint_of_row (public_keys_record ++ [(lit "fk_name", lit "SYS_CONSTRAINT_1")])
  = constraint_of_row public_keys_record.
Proof.
  apply constraint_of_six_fields. repeat constructor.
Defined.

(** *** Constraints and the table list *)

(** X16. A constraint names its tables as [get_table_list] names them: when
    the two sides of a record are tables of the response, the table and the
    constrained table of its constraint are among the names of the tables
    returned. *)
Theorem constraint_tables_are_listed
    (response : list ColumnsRow) (pk_row fk_row : ColumnsRow)
    (record : KeysRow) (c : Constraint.t)
    (Hpk : In pk_row response) (Hfk : In fk_row response)
    (Hpks : PyDict.lookup record (lit "pk_schema_name") = Some (TABLE_SCHEMA pk_row))
    (Hpkt : PyDict.lookup record (lit "pk_table_name") = Some (TABLE_NAME pk_row))
    (Hfks : PyDict.lookup record (lit "fk_schema_name") = Some (TABLE_SCHEMA fk_row))
    (Hfkt : PyDict.lookup record (lit "fk_table_name") = Some (TABLE_NAME fk_row))
    (Hc : constraint_of_row record = Ok c) :
  In (Constraint.constraintTable c) (map Table.name (get_table_list response))
  /\ In (Constraint.constraintedTable c) (map Table.name (get_table_list response)).
Proof.
  apply constraint_of_row_inv in Hc.
  destruct Hc as (pks & pkt & pkc & fks & fkt & fkc
                  & H1 & H2 & H3 & H4 & H5 & H6 & ->).
  rewrite Hpks in H1. rewrite Hpkt in H2. rewrite Hfks in H4. rewrite Hfkt in H5.
  injection H1 as <-. injection H2 as <-. injection H4 as <-. injection H5 as <-.
  cbn [Constraint.constraintTable Constraint.constraintedTable].
  rewrite get_table_list_names.
  split; apply first_sightings_In;
    [change (_format_compact_table_name (TABLE_SCHEMA pk_row) (TABLE_NAME pk_row))
       with (compact_name pk_row)
    |change (_format_compact_table_name (TABLE_SCHEMA fk_row) (TABLE_NAME fk_row))
       with (compact_name fk_row)];
    now apply in_map.
Qed.

Lemma constraint_tables_are_listed_witness :
  exists c,
    constraint_of_row public_keys_record = Ok c
    /\ In (Constraint.constraintTable c)
          (map Table.name (get_table_list Samples.response))
    /\ In (Constraint.constraintedTable c)
          (map Table.name (get_table_list Samples.response)).
Proof.
  destruct (@constraint_of_row_total public_keys_record eq_refl) as [c Hc].
  exists c. split; [exact Hc|].
  refine (@constraint_tables_are_listed Samples.response
            (nth 1 Samples.response (hd_sample Samples.response))
            (nth 0 Samples.response (hd_sample Samples.response))
            public_keys_record c _ _ _ _ _ _ Hc);
    try reflexivity; simpl; tauto.
Defined.

End ConstraintsMore.
